(** * Recommendation routes of the ESP project portal

    A shallow embedding of the recommendation-related request handlers of
    [src/controllers/projects/controller.py] (project_page,
    get_all_project_data, add_view, register_user_data,
    update_recommendations), together with a model of the data-access layer
    they call, and the properties of the recommendation / affinity engine
    that hold or fail on them.

    Conventions.
    - A handler is a function of the ambient Flask objects ([request]: the
      logged-in user, the session, the query arguments) and of the database;
      it yields what the view returns or the exception that leaves it, the
      database afterwards and the lines it printed.
    - The classes of [src.models] are not part of the controller: the
      handlers are written against the interface [Models]; [SpecDB] is an
      instance written after the design document.
    - Match strengths are Python floats; they are idealised as rationals. *)

From Stdlib Require Import ZArith QArith Lqa Lia.
From Stdlib Require Import DecimalString DecimalZ.
From stdpp Require Import base option list sorting gmap strings.

Local Open Scope string_scope.
Local Open Scope Z_scope.

(* ===================================================================== *)
(** ** Python values, exceptions, results *)
(* ===================================================================== *)

(** The Python values that travel through the session and the data layer. *)
Inductive pyval : Type :=
  | PNone
  | PBool (b : bool)
  | PInt (z : Z)
  | PStr (s : string).

(** Truth value of an object, as [not x] and [if x] see it. *)
Definition truthy (v : pyval) : bool :=
  match v with
  | PNone => false
  | PBool b => b
  | PInt z => negb (z =? 0)
  | PStr s => negb (String.eqb s "")
  end.

(** [str(n)] for an int. *)
Definition str (z : Z) : string := NilZero.string_of_int (Z.to_int z).

Inductive exn : Type :=
  | KeyError (key : string)
  | IndexError
  | InvalidPair
  | NotFound
  | StoreUnavailable.

Inductive result (A : Type) : Type :=
  | Ok (a : A)
  | Raise (e : exn).
Arguments Ok {A} a.
Arguments Raise {A} e.

#[global] Instance result_ret : MRet result := λ A a, Ok a.
#[global] Instance result_bind : MBind result := λ A B f r,
  match r with
  | Ok a => f a
  | Raise e => Raise e
  end.

(** [d[key]] on a dict: KeyError when the key is missing. *)
Definition subscript {V} (d : gmap string V) (key : string) : result V :=
  match d !! key with
  | Some v => Ok v
  | None => Raise (KeyError key)
  end.

(** [d.get(key)]: None when the key is missing. *)
Definition dict_get (d : gmap string pyval) (key : string) : pyval :=
  default PNone (d !! key).

(* ===================================================================== *)
(** ** Objects of [src.models] read by the controller *)
(* ===================================================================== *)

(** A [Project] object with the attributes the handlers and the design
    document read: the id, the research group, the active flag, the view
    counter and the [liked] attribute set by get_all_project_data. *)
Record Project : Type := mkProject {
  project_id : Z;
  research_group : string;
  is_active : bool;
  view_count : Z;
  liked : pyval
}.

Definition set_liked (p : Project) (v : pyval) : Project :=
  {| project_id := project_id p; research_group := research_group p;
     is_active := is_active p; view_count := view_count p; liked := v |}.

(** A [Link] row: two project ids and the match percent. *)
Record Link : Type := mkLink {
  project_1 : Z;
  project_2 : Z;
  match_percent : Q
}.

Record ResearchGroup : Type := mkGroup { group_name : string }.

(** ** Flask's ambient objects *)

Record User : Type := mkUser {
  is_authenticated : bool;
  role : string;
  user_id : string
}.

Record request : Type := mkRequest {
  current_user : User;
  session : gmap string pyval;
  args : gmap string string
}.

Definition anonymous : User :=
  {| is_authenticated := false; role := ""; user_id := "" |}.

(** ** What a view returns *)

Inductive jvalue : Type :=
  | JBool (b : bool)
  | JStr (s : string).

Inductive body : Type :=
  | RenderTemplate (template : string)
  | Jsonify (fields : list (string * jvalue))
  | JsonProject (project_data : Project) (group : option ResearchGroup)
                (links : list Project)
  | Text (s : string).

(** Body, status and extra headers. A view that returns a bare body is
    answered with status 200. *)
Record response : Type := mkResponse {
  resp_body : body;
  status : Z;
  headers : list (string * string)
}.

Definition bare (b : body) : response :=
  {| resp_body := b; status := 200; headers := [] |}.

Definition json_header : list (string * string) :=
  [("ContentType", "application/json")].

(** The effect of one request: the value returned by the view or the
    exception that escapes it, the database afterwards, the lines printed. *)
Record reply (DB : Type) : Type := mkReply {
  outcome : result response;
  db_after : DB;
  printed : list string
}.
Arguments mkReply {DB} _ _ _.
Arguments outcome {DB} _.
Arguments db_after {DB} _.
Arguments printed {DB} _.

(* ===================================================================== *)
(** ** The data-access interface *)
(* ===================================================================== *)

(** The methods of LinkDataAccess, ProjectDataAccess, ClickDataAccess,
    LikeDataAccess and ResearchGroupDataAccess that the handlers call.
    Each may raise. [project_eq] is the equality under which a Python set
    of [Project] objects identifies two of its members. *)
Class Models (DB : Type) : Type := {
  update_match_percent : pyval → pyval → Q → DB → result DB;
  get_links_for_project : Z → DB → result (list Link);
  get_project : Z → bool → DB → result Project;
  get_most_viewed_projects : nat → bool → DB → result (list Project);
  add_view_count : Z → Z → DB → result DB;
  add_project_click : Z → pyval → DB → result DB;
  is_liked : Z → string → DB → result bool;
  get_research_group : string → DB → result ResearchGroup;
  project_eq : Project → Project → bool
}.

(* ===================================================================== *)
(** ** Python sets of projects *)
(* ===================================================================== *)

(** [x in s], for a set whose members are compared by [eqb]. *)
Definition set_mem (eqb : Project → Project → bool)
    (x : Project) (s : list Project) : bool :=
  existsb (eqb x) s.

(** [s.add(x)]: no effect when an equal member is present. The members are
    kept in insertion order; Python promises no order, and no statement
    below depends on it. *)
Definition set_add (eqb : Project → Project → bool)
    (x : Project) (s : list Project) : list Project :=
  if set_mem eqb x s then s else s ++ [x].

(* ===================================================================== *)
(** ** The handlers *)
(* ===================================================================== *)

Section Handlers.
Context {DB : Type} `{M : Models DB}.

Definition project_html : response := bare (RenderTemplate "project.html").

Definition success_200 : response :=
  {| resp_body := Jsonify [("success", JBool true)];
     status := 200; headers := json_header |}.

(** The per-click increment of project_page. *)
Definition click_increment : Q := 5 # 100.

(** [/project-page]: increases link strength upon a click, then renders the
    project page. There is no try around the data-layer call. *)
Definition project_page (req : request) (db : DB) : reply DB :=
  match args req !! "from", args req !! "project_id" with
  | Some from, Some to =>
      match update_match_percent (PStr from) (PStr to) click_increment db with
      | Ok db' => mkReply (Ok project_html) db' []
      | Raise e => mkReply (Raise e) db []
      end
  | _, _ => mkReply (Ok project_html) db []
  end.

(** The loop over the links of get_all_project_data:
    [for link in linked_projects:
       if len(linked_projects_data) >= 4: break
       linked_projects_data.add(project_access.get_project(link.project_2, active_only))] *)
Fixpoint add_linked_projects (db : DB) (active_only : bool)
    (linked_projects : list Link) (data : list Project)
    : result (list Project) :=
  match linked_projects with
  | [] => Ok data
  | link :: rest =>
      if (4 <=? length data)%nat then Ok data
      else
        p ← get_project (project_2 link) active_only db;
        add_linked_projects db active_only rest (set_add project_eq p data)
  end.

(** The padding loop of get_all_project_data:
    [i = 0
     while len(linked_projects_data) < 4:
       if not projects_most_views[i].project_id == p_id:
         linked_projects_data.add(projects_most_views[i])
       i += 1]
    The argument [rest] is [projects_most_views[i:]]: subscripting at [i]
    past the end of the list raises IndexError. *)
Fixpoint fill_with_most_viewed (p_id : Z) (rest : list Project)
    (data : list Project) : result (list Project) :=
  if (length data <? 4)%nat then
    match rest with
    | [] => Raise IndexError
    | x :: rest' =>
        fill_with_most_viewed p_id rest'
          (if project_id x =? p_id then data else set_add project_eq x data)
    end
  else Ok data.

(** The body of get_all_project_data, up to the value passed to jsonify. *)
Definition all_project_data (p_id : Z) (req : request) (db : DB)
    : result response :=
  archive ← subscript (session req) "archive";
  let active_only := negb (truthy archive) in
  p_data ← get_project p_id active_only db;
  p_data ←
    (if is_authenticated (current_user req)
        && String.eqb (role (current_user req)) "student"
     then
       l ← is_liked (project_id p_data) (user_id (current_user req)) db;
       mret (set_liked p_data (PBool l))
     else mret p_data);
  linked_projects ← get_links_for_project p_id db;
  data ← add_linked_projects db active_only linked_projects [];
  data ←
    (if (length data <? 4)%nat then
       projects_most_views ← get_most_viewed_projects 8 active_only db;
       fill_with_most_viewed p_id projects_most_views data
     else mret data);
  let group :=
    match get_research_group (research_group p_data) db with
    | Ok g => Some g
    | Raise _ => None
    end in
  mret (bare (JsonProject p_data group data)).

(** [/get-all-project-data/<int:p_id>]: reads only. *)
Definition get_all_project_data (p_id : Z) (req : request) (db : DB)
    : reply DB :=
  mkReply (all_project_data p_id req db) db [].

(** The [active_only] of the endpoints that read the session with
    [session.get("archive")] (projects-page-additional, search). *)
Definition active_only_of_get (req : request) : bool :=
  negb (truthy (dict_get (session req) "archive")).

(** [/add-view/<int:p_id>] *)
Definition add_view (p_id : Z) (req : request) (db : DB) : reply DB :=
  match add_view_count p_id 1 db with
  | Ok db' => mkReply (Ok success_200) db' []
  | Raise _ =>
      mkReply (Ok (bare (Text ""))) db
        ["Failed to count a view for project " +:+ str p_id +:+ "."]
  end.

Definition register_failure (p_id : Z) : response :=
  {| resp_body :=
       Jsonify [("success", JBool true);
                ("message",
                 JStr ("Failed to register user behaviour for project "
                       +:+ str p_id +:+ "."))];
     status := 400; headers := json_header |}.

(** [/register-user-data/<int:p_id>] *)
Definition register_user_data (p_id : Z) (req : request) (db : DB)
    : reply DB :=
  match add_view_count p_id 1 db with
  | Raise _ => mkReply (Ok (register_failure p_id)) db []
  | Ok db1 =>
      match dict_get (session req) "session_id" with
      | PNone => mkReply (Ok success_200) db1 []
      | session_id =>
          match add_project_click p_id session_id db1 with
          | Ok db2 => mkReply (Ok success_200) db2 []
          | Raise _ => mkReply (Ok (register_failure p_id)) db1 []
          end
      end
  end.

(** [/update-recommendations/<int:p1_id>/<int:p2_id>/<float:amount>] *)
Definition update_recommendations (p1_id p2_id : Z) (amount : Q)
    (req : request) (db : DB) : reply DB :=
  match update_match_percent (PInt p1_id) (PInt p2_id) amount db with
  | Ok db' => mkReply (Ok success_200) db' []
  | Raise _ =>
      mkReply (Ok (bare (Text ""))) db
        ["Failed to update recommendations for project " +:+ str p1_id
         +:+ " and project " +:+ str p2_id +:+ "."]
  end.

(** The projects listed under ["links"] in a reply. *)
Definition links_of (r : result response) : option (list Project) :=
  match r with
  | Ok {| resp_body := JsonProject _ _ links |} => Some links
  | _ => None
  end.

End Handlers.

(* ===================================================================== *)
(** ** The data layer after the design document *)
(* ===================================================================== *)

(** Modelled from the spec: the tables behind the data-access classes of
    [src.models], which the controller imports and which are not part of
    it. [catalog] is the project catalog with its view counters, [links]
    the affinity store keyed by the unordered pair (smaller id first, one
    entry per pair), [clicks] the append-only click events (the timestamp
    is left out). [likes] and [groups] serve LikeDataAccess and
    ResearchGroupDataAccess, which the design document leaves out of its
    scope; they are plain tables. *)
Record SpecDB : Type := mkSpecDB {
  catalog : list Project;
  links : gmap (Z * Z) Q;
  clicks : list (Z * pyval);
  likes : list (Z * string);
  groups : gmap string ResearchGroup
}.

Definition with_links (db : SpecDB) (m : gmap (Z * Z) Q) : SpecDB :=
  {| catalog := catalog db; links := m; clicks := clicks db;
     likes := likes db; groups := groups db |}.

Definition with_catalog (db : SpecDB) (c : list Project) : SpecDB :=
  {| catalog := c; links := links db; clicks := clicks db;
     likes := likes db; groups := groups db |}.

Definition with_clicks (db : SpecDB) (c : list (Z * pyval)) : SpecDB :=
  {| catalog := catalog db; links := links db; clicks := c;
     likes := likes db; groups := groups db |}.

(** Modelled from the spec: the key of an AffinityLink, "unordered pair
    (project_a, project_b) with project_a < project_b by convention". *)
Definition pair_key (a b : Z) : Z * Z := (Z.min a b, Z.max a b).

(** Modelled from the spec: [get_strength(a, b)], "returns 0.0 if no link
    exists; otherwise the stored strength". *)
Definition get_strength (db : SpecDB) (a b : Z) : Q :=
  default 0%Q (links db !! pair_key a b).

(** Modelled from the spec: "clamps the result to [0.0, 1.0]". *)
Definition clamp (x : Q) : Q :=
  if Qle_bool x 0 then 0%Q else if Qle_bool 1 x then 1%Q else x.

(** Modelled from the spec: a project id "the catalog collaborator does
    not recognize" is one with no entry in the catalog. *)
Definition known (db : SpecDB) (p : Z) : bool :=
  existsb (λ x, project_id x =? p) (catalog db).

(** Modelled from the spec: [reinforce(a, b, delta)], which "adds delta to
    the existing strength (creating the link at strength 0 if absent),
    clamps the result to [0.0, 1.0], persists, and returns the new value";
    a pair with [a == b] is rejected (InvalidPair), an unrecognised id is
    NotFound. *)
Definition reinforce (a b : Z) (delta : Q) (db : SpecDB)
    : result (SpecDB * Q) :=
  if a =? b then Raise InvalidPair
  else if known db a && known db b then
    let v := clamp (get_strength db a b + delta) in
    Ok (with_links db (<[pair_key a b := v]> (links db)), v)
  else Raise NotFound.

(** Modelled from the spec: the integer id an argument stands for; the
    click-through route hands over the query strings as they are. *)
Definition as_project_id (v : pyval) : option Z :=
  match v with
  | PInt z => Some z
  | PStr s => Z.of_int <$> NilZero.int_of_string s
  | _ => None
  end.

(** Modelled from the spec: LinkDataAccess.update_match_percent is the
    store's [reinforce]; the new value is not handed back. *)
Definition spec_update_match_percent (a b : pyval) (delta : Q) (db : SpecDB)
    : result SpecDB :=
  match as_project_id a, as_project_id b with
  | Some x, Some y => r ← reinforce x y delta db; mret (r.1)
  | _, _ => Raise NotFound
  end.

(** Modelled from the spec: the stored AffinityLinks as rows, one per key,
    the members of the pair in the stored order (smaller id first). *)
Definition link_rows (db : SpecDB) : list Link :=
  (λ kv, mkLink (kv.1.1) (kv.1.2) (kv.2)) <$> map_to_list (links db).

(** Modelled from the spec: a link "involving project_id". *)
Definition involves (p : Z) (l : Link) : bool :=
  (project_1 l =? p) || (project_2 l =? p).

(** Modelled from the spec: the "other_project_id" of a link of [p]. *)
Definition other_project (p : Z) (l : Link) : Z :=
  if project_1 l =? p then project_2 l else project_1 l.

(** Modelled from the spec: the order of [top_links], "sorted by strength
    descending, ties broken by smaller other_project_id ascending". *)
Definition stronger (p : Z) (l1 l2 : Link) : bool :=
  negb (Qle_bool (match_percent l1) (match_percent l2))
  || (Qeq_bool (match_percent l1) (match_percent l2)
      && (other_project p l1 <=? other_project p l2)).

Definition link_before (p : Z) : relation Link :=
  λ l1 l2, Is_true (stronger p l1 l2).

#[global] Instance link_before_dec p l1 l2 : Decision (link_before p l1 l2).
Proof. unfold link_before. apply _. Defined.

(** Modelled from the spec: the rows behind [top_links(project_id, limit)],
    "all links involving project_id", in that order and cut at [limit]. *)
Definition top_link_rows (p : Z) (limit : nat) (db : SpecDB) : list Link :=
  take limit (merge_sort (link_before p) (filter (λ l, Is_true (involves p l)) (link_rows db))).

(** Modelled from the spec: [top_links], the pairs (other_project_id,
    strength) of those rows. *)
Definition top_links (p : Z) (limit : nat) (db : SpecDB) : list (Z * Q) :=
  (λ l, (other_project p l, match_percent l)) <$> top_link_rows p limit db.

(** Modelled from the spec: the [Link] object that stands for an entry
    (other_project_id, strength) of [top_links(project_id, limit)]: the
    project asked for in [project_1], the other member of the pair in
    [project_2], whichever of the two is stored first. *)
Definition link_for (p : Z) (l : Link) : Link :=
  {| project_1 := p; project_2 := other_project p l;
     match_percent := match_percent l |}.

(** Modelled from the spec: LinkDataAccess.get_links_for_project, the
    entries of [top_links] as [Link] objects. *)
Definition links_for_project (p : Z) (limit : nat) (db : SpecDB) : list Link :=
  link_for p <$> top_link_rows p limit db.

(** Modelled from the spec: the invariant of the data model, "unordered
    pair (project_a, project_b) with project_a < project_b". *)
Definition links_well_formed (db : SpecDB) : Prop :=
  ∀ k v, links db !! k = Some v → k.1 < k.2.

(** Modelled from the spec: the active-only filter, "if active_only is
    true, archived projects are excluded". *)
Definition eligible (active_only : bool) (x : Project) : bool :=
  negb active_only || is_active x.

(** Modelled from the spec: [fetch_project(id, active_only)], a summary or
    not-found. *)
Definition spec_get_project (p : Z) (active_only : bool) (db : SpecDB)
    : result Project :=
  match find (λ x, (project_id x =? p) && eligible active_only x)
             (catalog db) with
  | Some x => Ok x
  | None => Raise NotFound
  end.

(** Modelled from the spec: the order of the popularity fallback, "by
    ViewCounter, descending, ties broken by project id ascending". *)
Definition more_viewed (x y : Project) : bool :=
  (view_count y <? view_count x)
  || ((view_count x =? view_count y) && (project_id x <=? project_id y)).

Definition viewed_before : relation Project :=
  λ x y, Is_true (more_viewed x y).

#[global] Instance viewed_before_dec x y : Decision (viewed_before x y).
Proof. unfold viewed_before. apply _. Defined.

(** Modelled from the spec: [fetch_most_viewed(n, active_only)]. *)
Definition most_viewed (n : nat) (active_only : bool) (db : SpecDB)
    : list Project :=
  take n (merge_sort viewed_before
            (filter (λ x, Is_true (eligible active_only x)) (catalog db))).

(** Modelled from the spec: the "eligible_catalog_size", the number of
    projects of the catalog that pass the active-only filter. *)
Definition eligible_catalog_size (active_only : bool) (db : SpecDB) : nat :=
  length (filter (λ x, Is_true (eligible active_only x)) (catalog db)).

(** Modelled from the spec: [increment_view], "unconditional +1" on the
    counter of a recognised project. *)
Definition spec_add_view_count (p amount : Z) (db : SpecDB) : result SpecDB :=
  if known db p then
    Ok (with_catalog db
          ((λ x, if project_id x =? p
                 then mkProject (project_id x) (research_group x) (is_active x)
                                (view_count x + amount) (liked x)
                 else x) <$> catalog db))
  else Raise NotFound.

(** Modelled from the spec: [increment_click], which "always appends a new
    record". *)
Definition spec_add_project_click (p : Z) (session_id : pyval) (db : SpecDB)
    : result SpecDB :=
  if known db p then Ok (with_clicks db (clicks db ++ [(p, session_id)]))
  else Raise NotFound.

(** Modelled from the spec: LikeDataAccess.is_liked and
    ResearchGroupDataAccess.get_research_group are left out of the design
    document; they are lookups in [likes] and [groups]. *)
Definition spec_is_liked (p : Z) (student : string) (db : SpecDB)
    : result bool :=
  Ok (existsb (λ l, (l.1 =? p) && String.eqb (l.2) student) (likes db)).

Definition spec_get_research_group (g : string) (db : SpecDB)
    : result ResearchGroup :=
  match groups db !! g with
  | Some x => Ok x
  | None => Raise NotFound
  end.

(** Modelled from the spec: the result is "a set semantics collection"
    with "no duplicates": two summaries of one project are one member. *)
Definition same_project (x y : Project) : bool :=
  project_id x =? project_id y.

(** Modelled from the spec: the data layer of the design document as an
    instance of the interface of the handlers. *)
#[global] Instance spec_models : Models SpecDB := {|
  update_match_percent := spec_update_match_percent;
  get_links_for_project := λ p db, Ok (links_for_project p 4 db);
  get_project := spec_get_project;
  get_most_viewed_projects := λ n active_only db, Ok (most_viewed n active_only db);
  add_view_count := spec_add_view_count;
  add_project_click := spec_add_project_click;
  is_liked := spec_is_liked;
  get_research_group := spec_get_research_group;
  project_eq := same_project
|}.

(** A data layer whose store cannot be reached: every call raises. *)
Inductive Unreachable : Type := unreachable.

#[global] Instance unreachable_models : Models Unreachable := {|
  update_match_percent := λ _ _ _ _, Raise StoreUnavailable;
  get_links_for_project := λ _ _, Raise StoreUnavailable;
  get_project := λ _ _ _, Raise StoreUnavailable;
  get_most_viewed_projects := λ _ _ _, Raise StoreUnavailable;
  add_view_count := λ _ _ _, Raise StoreUnavailable;
  add_project_click := λ _ _ _, Raise StoreUnavailable;
  is_liked := λ _ _ _, Raise StoreUnavailable;
  get_research_group := λ _ _, Raise StoreUnavailable;
  project_eq := λ _ _, false
|}.

(** A data layer that counts the views and accepts the adjustments, and
    whose click table cannot be written. *)
Record ViewsOnly : Type := mkViews { views_counted : Z }.

#[global] Instance views_only_models : Models ViewsOnly := {|
  update_match_percent := λ _ _ _ db, Ok db;
  get_links_for_project := λ _ _, Ok [];
  get_project := λ _ _ _, Raise NotFound;
  get_most_viewed_projects := λ _ _ _, Ok [];
  add_view_count := λ _ amount db, Ok (mkViews (views_counted db + amount));
  add_project_click := λ _ _ _, Raise StoreUnavailable;
  is_liked := λ _ _ _, Ok false;
  get_research_group := λ _ _, Raise NotFound;
  project_eq := λ _ _, false
|}.

(** ** Sequences of reinforcements *)

(** The two requests that change a match strength: a click-through on
    [/project-page] and a manual adjustment on [/update-recommendations]. *)
Inductive reinforcement : Type :=
  | ClickThrough (req : request)
  | ManualAdjustment (p1_id p2_id : Z) (amount : Q) (req : request).

Definition apply_reinforcement {DB} `{Models DB}
    (db : DB) (ev : reinforcement) : DB :=
  match ev with
  | ClickThrough req => db_after (project_page req db)
  | ManualAdjustment p1 p2 amount req =>
      db_after (update_recommendations p1 p2 amount req db)
  end.

Definition run_reinforcements {DB} `{Models DB}
    (evs : list reinforcement) (db : DB) : DB :=
  fold_left apply_reinforcement evs db.

(** A store with no link yet. *)
Definition initial (projects : list Project) : SpecDB :=
  {| catalog := projects; links := ∅; clicks := []; likes := []; groups := ∅ |}.

(** Every stored strength lies in [0, 1]. *)
Definition strengths_bounded (db : SpecDB) : Prop :=
  ∀ k v, links db !! k = Some v → (0 <= v)%Q ∧ (v <= 1)%Q.

(** ** Sample data *)

Definition sample_project (id views : Z) (active : bool) : Project :=
  {| project_id := id; research_group := "ADReM"; is_active := active;
     view_count := views; liked := PNone |}.

(** Three active projects, no link. *)
Definition small_catalog : SpecDB :=
  initial [sample_project 1 5 true; sample_project 2 4 true;
           sample_project 3 3 true].

(** Seven active projects, project 1 the least viewed, and one link between
    projects 1 and 2. *)
Definition linked_catalog : SpecDB :=
  {| catalog := [sample_project 1 1 true; sample_project 2 9 true;
                 sample_project 3 8 true; sample_project 4 7 true;
                 sample_project 5 6 true; sample_project 6 5 true;
                 sample_project 7 4 true];
     links := {[ (1, 2) := (9 # 10)%Q ]};
     clicks := []; likes := []; groups := ∅ |}.

(** A visitor who is not logged in and browses the current projects. *)
Definition visitor : request :=
  {| current_user := anonymous;
     session := {[ "archive" := PBool false ]};
     args := ∅ |}.

(** The same visitor arriving on a project page from another one. *)
Definition click (from to : string) : request :=
  {| current_user := anonymous;
     session := {[ "archive" := PBool false ]};
     args := {[ "from" := from; "project_id" := to ]} |}.

(** Scenario A of the design document: five active projects with view
    counts 5, 4, 3, 2, 1 and no link. *)
Definition scenario_A : SpecDB :=
  initial [sample_project 1 5 true; sample_project 2 4 true;
           sample_project 3 3 true; sample_project 4 2 true;
           sample_project 5 1 true].

(** Scenario B: the same catalog with link(1,2) = 0.9 and link(1,3) = 0.4. *)
Definition scenario_B : SpecDB :=
  with_links scenario_A {[ (1, 2) := (9 # 10)%Q; (1, 3) := (4 # 10)%Q ]}.

(** Scenario D, one request after the other: projects 7 and 8, no link. *)
Definition scenario_D : SpecDB :=
  initial [sample_project 7 0 true; sample_project 8 0 true].

(** A first-time visitor: nothing in the session yet. *)
Definition newcomer : request :=
  {| current_user := anonymous; session := ∅; args := ∅ |}.

(** The ids of the related projects a request is answered with (none when
    the request raises). *)
Definition related_ids {DB} `{Models DB} (p : Z) (req : request) (db : DB)
    : list Z :=
  match links_of (outcome (get_all_project_data p req db)) with
  | Some r => project_id <$> r
  | None => []
  end.

(** The number of entries of a batch that are not project [p]. *)
Definition count_others (p : Z) (l : list Project) : nat :=
  length (List.filter (λ x, negb (project_id x =? p)) l).

(** ** More sample data *)

(** Project 1 linked with projects 2, 3, 4 and 5; project 6 is the most
    viewed. *)
Definition star_catalog : SpecDB :=
  {| catalog := [sample_project 1 1 true; sample_project 2 2 true;
                 sample_project 3 3 true; sample_project 4 4 true;
                 sample_project 5 5 true; sample_project 6 9 true];
     links := {[ (1, 2) := (9 # 10)%Q; (1, 3) := (8 # 10)%Q;
                 (1, 4) := (7 # 10)%Q; (1, 5) := (6 # 10)%Q ]};
     clicks := []; likes := []; groups := ∅ |}.

(** A visitor whose session carries a session id. *)
Definition tracked_visitor : request :=
  {| current_user := anonymous;
     session := {[ "archive" := PBool false; "session_id" := PStr "s-41" ]};
     args := ∅ |}.

(** A data layer that answers the research-group lookup with [lookup] and
    every other call as [M] does. *)
Definition with_research_group {DB} (M : Models DB)
    (lookup : string → DB → result ResearchGroup) : Models DB :=
  {| update_match_percent := update_match_percent;
     get_links_for_project := get_links_for_project;
     get_project := get_project;
     get_most_viewed_projects := get_most_viewed_projects;
     add_view_count := add_view_count;
     add_project_click := add_project_click;
     is_liked := is_liked;
     get_research_group := lookup;
     project_eq := project_eq |}.

(** A reply of get_all_project_data without its research group: the
    project data and the related projects, or the exception. *)
Definition without_group (r : result response) : result (Project * list Project) :=
  match r with
  | Ok {| resp_body := JsonProject p_data _ links |} => Ok (p_data, links)
  | Ok _ => Raise NotFound
  | Raise e => Raise e
  end.

(* ===================================================================== *)
(** ** Who may edit a project: projects, can_modify, likes *)
(* ===================================================================== *)

(** An [Employee] and a [Guide] object, with the attributes that
    employee_authorized_for_project reads. Ids are taken to be ints. *)
Record Employee : Type := mkEmployee {
  e_id : Z;
  employee_name : string;
  employee_group : string
}.

Record Guide : Type := mkGuide {
  employee : Z;
  guided_project : pyval
}.

(** The further methods of the data layer that these handlers call:
    EmployeeDataAccess.get_employee_by_name,
    GuideDataAccess.get_guides_for_project, ProjectDataAccess.get_project
    with the project id as it was sent (a path segment or a JSON value, not
    converted), LikeDataAccess.add_like and remove_like. *)
Class Staff (DB : Type) : Type := {
  get_employee_by_name : string → DB → result Employee;
  get_guides_for_project : pyval → DB → result (list Guide);
  get_project_as_sent : pyval → bool → DB → result Project;
  add_like : string → string → DB → result DB;
  remove_like : string → string → DB → result DB
}.

(** [for guide in guides: if guide.employee == employee.e_id: return True] *)
Fixpoint is_guide (guides : list Guide) (the_employee : Employee) : bool :=
  match guides with
  | [] => false
  | guide :: rest =>
      if employee guide =? e_id the_employee then true
      else is_guide rest the_employee
  end.

Definition not_authorized : response :=
  {| resp_body :=
       Jsonify [("success", JBool false);
                ("message",
                 JStr "You are not authorized to edit the selected projects")];
     status := 400; headers := json_header |}.

Definition failure_400 : response :=
  {| resp_body := Jsonify [("success", JBool false)];
     status := 400; headers := json_header |}.

Section Editing.
Context {DB : Type} `{S : Staff DB}.

(** employee_authorized_for_project(employee_name, project_id) *)
Definition employee_authorized_for_project
    (name : string) (project_id : pyval) (db : DB) : result bool :=
  the_employee ← get_employee_by_name name db;
  guides ← get_guides_for_project project_id db;
  if is_guide guides the_employee then mret true
  else
    project ← get_project_as_sent project_id false db;
    mret (String.eqb (employee_group the_employee) (research_group project)).

(** [/can-modify/<p_id>]; [name] is [current_user.name]. *)
Definition can_modify (name : string) (p_id : string)
    (req : request) (db : DB) : reply DB :=
  let user := current_user req in
  let modifiable :=
    if is_authenticated user then
      if String.eqb (role user) "admin" then Ok true
      else if String.eqb (role user) "employee"
           then employee_authorized_for_project name (PStr p_id) db
           else Ok false
    else Ok false in
  match modifiable with
  | Ok b => mkReply (Ok (bare (Jsonify [("modify", JBool b)]))) db []
  | Raise e => mkReply (Raise e) db []
  end.

(** The loop of projects over [data["projects"]]: whether it runs to its
    end ([true]) or returns the refusal ([false]). *)
Fixpoint all_authorized (user_role name : string) (projects : list pyval)
    (db : DB) : result bool :=
  match projects with
  | [] => Ok true
  | project :: rest =>
      if negb (String.eqb user_role "admin") then
        authorized ← employee_authorized_for_project name project db;
        if negb authorized then Ok false
        else all_authorized user_role name rest db
      else all_authorized user_role name rest db
  end.

(** [/projects]; [method] is [request.method], [name] is
    [current_user.name], [json] is [request.json] (a JSON object whose
    members are lists), [manage] is the function of manage_projects. *)
Definition projects (method name : string)
    (json : gmap string (list pyval))
    (manage : gmap string (list pyval) → DB → reply DB)
    (req : request) (db : DB) : reply DB :=
  if String.eqb method "GET" then
    mkReply (Ok (bare (RenderTemplate "projects.html"))) db []
  else
    let user := current_user req in
    if negb (is_authenticated user)
       || (negb (String.eqb (role user) "admin")
           && negb (String.eqb (role user) "employee"))
    then mkReply (Ok not_authorized) db []
    else
      match subscript json "projects" with
      | Raise e => mkReply (Raise e) db []
      | Ok data_projects =>
          match all_authorized (role user) name data_projects db with
          | Raise e => mkReply (Raise e) db []
          | Ok false => mkReply (Ok not_authorized) db []
          | Ok true => manage json db
          end
      end.

(** [/like-project]; [form] is [request.form]. *)
Definition like_project (form : gmap string string)
    (req : request) (db : DB) : reply DB :=
  if negb (is_authenticated (current_user req)) then
    mkReply (Ok failure_400) db []
  else
    match subscript form "data" with
    | Raise e => mkReply (Raise e) db []
    | Ok data =>
        match add_like (user_id (current_user req)) data db with
        | Ok db' => mkReply (Ok success_200) db' []
        | Raise e => mkReply (Raise e) db []
        end
    end.

(** [/unlike-project] *)
Definition unlike_project (form : gmap string string)
    (req : request) (db : DB) : reply DB :=
  if negb (is_authenticated (current_user req)) then
    mkReply (Ok failure_400) db []
  else
    match subscript form "data" with
    | Raise e => mkReply (Raise e) db []
    | Ok data =>
        match remove_like (user_id (current_user req)) data db with
        | Ok db' => mkReply (Ok success_200) db' []
        | Raise e => mkReply (Raise e) db []
        end
    end.

End Editing.

(** A small data layer kept in lists, for the examples: the employees, the
    guides, the projects and the likes. *)
Record Office : Type := mkOffice {
  office_staff : list Employee;
  office_guides : list Guide;
  office_projects : list Project;
  office_likes : list (string * string)
}.

#[global] Instance pyval_eq_dec : EqDecision pyval.
Proof. solve_decision. Defined.

#[global] Instance office_staff_layer : Staff Office := {|
  get_employee_by_name := λ name db,
    match find (λ e, String.eqb (employee_name e) name) (office_staff db) with
    | Some e => Ok e
    | None => Raise NotFound
    end;
  get_guides_for_project := λ project db,
    Ok (List.filter (λ g, bool_decide (guided_project g = project))
          (office_guides db));
  get_project_as_sent := λ project _ db,
    match as_project_id project with
    | Some id =>
        match find (λ x, project_id x =? id) (office_projects db) with
        | Some x => Ok x
        | None => Raise NotFound
        end
    | None => Raise NotFound
    end;
  add_like := λ student project db,
    Ok {| office_staff := office_staff db; office_guides := office_guides db;
          office_projects := office_projects db;
          office_likes := (student, project) :: office_likes db |};
  remove_like := λ student project db,
    Ok {| office_staff := office_staff db; office_guides := office_guides db;
          office_projects := office_projects db;
          office_likes :=
            List.filter
              (λ l, negb (String.eqb (l.1) student && String.eqb (l.2) project))
              (office_likes db) |}
|}.

(** Ann guides project 7 of another group; Bob shares the group of
    project 8; nobody guides project 9, whose group is neither's. *)
Definition sample_office : Office :=
  {| office_staff := [mkEmployee 1 "Ann" "ADReM"; mkEmployee 2 "Bob" "IDLab"];
     office_guides := [mkGuide 1 (PStr "7")];
     office_projects :=
       [mkProject 7 "IDLab" true 0 PNone; mkProject 8 "IDLab" true 0 PNone;
        mkProject 9 "MOSAIC" true 0 PNone];
     office_likes := [] |}.

Definition logged_in (user_role id : string) : request :=
  {| current_user :=
       {| is_authenticated := true; role := user_role; user_id := id |};
     session := ∅; args := ∅ |}.

(** A stand-in for manage_projects.manage in the examples: it answers
    success and leaves the database as it is. *)
Definition sample_manage {DB} (data : gmap string (list pyval)) (db : DB)
    : reply DB :=
  mkReply (Ok success_200) db ["managed"].

(* ===================================================================== *)
(** ** Attachments: save_attachment, get_attachment *)
(* ===================================================================== *)

(** The uploaded file of [request.files]: its name as the client sent it
    and its bytes. *)
Record FileStorage : Type := mkFile {
  filename : string;
  stream : string
}.

(** What is at [<file-storage>/attachments]: nothing yet, a directory of
    files (name and bytes), or something that makes [os.mkdir] fail (no
    parent directory, a file of that name). *)
Inductive upload_dir : Type :=
  | NoDirectory
  | Directory (files : gmap string string)
  | Blocked.

(** [os.listdir(upload_dir)], once the directory is there. *)
Definition listdir (d : upload_dir) : gmap string string :=
  match d with
  | Directory files => files
  | _ => ∅
  end.

(** How save_attachment ends: with a reply, with an OSError leaving the
    view, or still in its loop when the fuel is used up. *)
Inductive upload_outcome : Type :=
  | Answered (r : response)
  | RaisedOSError
  | Spinning.

(** The name after [k] rounds of [filename = "1" + filename]. *)
Fixpoint prefixed (k : nat) (name : string) : string :=
  match k with
  | O => name
  | S k' => "1" +:+ prefixed k' name
  end.

(** [while filename in os.listdir(upload_dir): filename = "1" + filename],
    run for at most [fuel] tests of the condition. *)
Fixpoint free_name (fuel : nat) (files : gmap string string)
    (name : string) : option string :=
  match fuel with
  | O => None
  | S fuel' =>
      match files !! name with
      | Some _ => free_name fuel' files ("1" +:+ name)
      | None => Some name
      end
  end.

Section Attachments.
(** werkzeug's secure_filename, which is not part of the repository. *)
Context (secure_filename : string → string).

(** [/save-attachment]. The loop gets one test more than the directory has
    entries. Saving under the empty name opens the directory itself for
    writing, which fails. *)
Definition save_attachment (request_files : gmap string FileStorage)
    (d : upload_dir) : upload_outcome * upload_dir :=
  match request_files !! "file" with
  | None => (Answered failure_400, d)
  | Some file =>
      if String.eqb (filename file) "" then (Answered failure_400, d)
      else
        let name := secure_filename (filename file) in
        let made :=
          match d with
          | NoDirectory => Some ∅
          | Directory files => Some files
          | Blocked => None
          end in
        match made with
        | None => (RaisedOSError, d)
        | Some files =>
            match free_name (S (size files)) files name with
            | None => (Spinning, Directory files)
            | Some name' =>
                if String.eqb name' "" then (RaisedOSError, Directory files)
                else
                  (Answered
                     {| resp_body :=
                          Jsonify [("success", JBool true);
                                   ("name", JStr (filename file));
                                   ("file_location", JStr name')];
                        status := 200; headers := json_header |},
                   Directory (<[name' := stream file]> files))
            end
        end
  end.

(** How get_attachment ends: the file is sent, send_from_directory aborts
    with 404, or the view replies itself. *)
Inductive download : Type :=
  | SendFile (content : string)
  | Abort404
  | Replied (r : response).

(** [/get-attachment/<path:filename>]. The directory is flat: a name that
    is not the name of a stored file is not found. *)
Definition get_attachment (filename : string) (d : upload_dir) : download :=
  if negb (String.eqb (secure_filename filename) "") then
    match listdir d !! filename with
    | Some content => SendFile content
    | None => Abort404
    end
  else Replied failure_400.

End Attachments.

(** A stand-in for secure_filename in the examples: it keeps the ASCII
    letters and digits and the characters [.], [-] and [_], and drops
    everything else. *)
Definition keeps (c : Ascii.ascii) : bool :=
  let n := Ascii.nat_of_ascii c in
  ((48 <=? n) && (n <=? 57) || (65 <=? n) && (n <=? 90)
   || (97 <=? n) && (n <=? 122) || (n =? 45) || (n =? 46) || (n =? 95))%nat.

Fixpoint plain_name (s : string) : string :=
  match s with
  | EmptyString => EmptyString
  | String c rest =>
      if keeps c then String c (plain_name rest) else plain_name rest
  end.

Definition upload (name content : string) : gmap string FileStorage :=
  {[ "file" := mkFile name content ]}.

(** The value of ['file_location'] in the reply of save_attachment. *)
Definition file_location (r : response) : option string :=
  match resp_body r with
  | Jsonify [("success", JBool true); ("name", _); ("file_location", JStr location)] =>
      Some location
  | _ => None
  end.

(* ===================================================================== *)
(** * Properties *)
(* ===================================================================== *)

(** ** Results *)

Lemma bind_raise {A B} (r : result A) (k : A → result B) e :
  r = Raise e → r ≫= k = Raise e.
Proof. by intros ->. Qed.

(** ** Sets *)

Lemma set_add_length eqb x s :
  (length s ≤ length (set_add eqb x s) ≤ S (length s))%nat.
Proof.
  unfold set_add. destruct (set_mem eqb x s); [lia|].
  rewrite length_app. simpl. lia.
Qed.

Lemma set_add_keeps eqb y x s : y ∈ s → y ∈ set_add eqb x s.
Proof.
  unfold set_add. destruct (set_mem eqb x s); [done|].
  rewrite elem_of_app. by left.
Qed.

Lemma set_add_elem eqb y x s : y ∈ set_add eqb x s → y ∈ s ∨ y = x.
Proof.
  unfold set_add. destruct (set_mem eqb x s); [by left|].
  rewrite elem_of_app, list_elem_of_singleton. tauto.
Qed.

Lemma set_add_first eqb x : set_add eqb x [] = [x].
Proof. reflexivity. Qed.



(** ** The two loops of get_all_project_data *)

(** Unfolds one round of a loop, or one bind, and nothing else. *)
Ltac unroll :=
  cbn [add_linked_projects fill_with_most_viewed mbind result_bind mret
       result_ret].
Tactic Notation "unroll" "in" hyp(H) :=
  cbn [add_linked_projects fill_with_most_viewed mbind result_bind mret
       result_ret] in H.

Section Loops.
Context {DB : Type} `{M : Models DB}.

Lemma add_linked_projects_keeps db ao ls : ∀ data out y,
  add_linked_projects db ao ls data = Ok out → y ∈ data → y ∈ out.
Proof.
  induction ls as [|l ls IH]; intros data out y Hrun Hy; unroll in Hrun.
  - by inversion Hrun; subst.
  - destruct (4 <=? length data)%nat.
    + by inversion Hrun; subst.
    + destruct (get_project (project_2 l) ao db) as [q|e]; unroll in Hrun;
        [|discriminate].
      eapply IH; [exact Hrun|]. by apply set_add_keeps.
Qed.

Lemma add_linked_projects_bound db ao ls : ∀ data out,
  add_linked_projects db ao ls data = Ok out →
  (length data ≤ 4)%nat → (length out ≤ 4)%nat.
Proof.
  induction ls as [|l ls IH]; intros data out Hrun Hlen; unroll in Hrun.
  - by inversion Hrun; subst.
  - destruct (4 <=? length data)%nat eqn:Hfull.
    + by inversion Hrun; subst.
    + destruct (get_project (project_2 l) ao db) as [q|e]; unroll in Hrun;
        [|discriminate].
      apply IH in Hrun; [done|].
      apply Nat.leb_gt in Hfull.
      pose proof (set_add_length project_eq q data). lia.
Qed.

Lemma fill_with_most_viewed_keeps p rest : ∀ data out y,
  fill_with_most_viewed p rest data = Ok out → y ∈ data → y ∈ out.
Proof.
  induction rest as [|x rest IH]; intros data out y Hrun Hy; unroll in Hrun.
  - destruct (length data <? 4)%nat; [discriminate|]. by inversion Hrun; subst.
  - destruct (length data <? 4)%nat; [|by inversion Hrun; subst].
    eapply IH; [exact Hrun|].
    destruct (project_id x =? p); [done|]. by apply set_add_keeps.
Qed.

Lemma fill_with_most_viewed_bound p rest : ∀ data out,
  fill_with_most_viewed p rest data = Ok out →
  (length data ≤ 4)%nat → (length out ≤ 4)%nat.
Proof.
  induction rest as [|x rest IH]; intros data out Hrun Hlen; unroll in Hrun.
  - destruct (length data <? 4)%nat; [discriminate|]. by inversion Hrun; subst.
  - destruct (length data <? 4)%nat eqn:Hroom; [|by inversion Hrun; subst].
    apply IH in Hrun; [done|].
    apply Nat.ltb_lt in Hroom.
    destruct (project_id x =? p); [lia|].
    pose proof (set_add_length project_eq x data). lia.
Qed.

(** The padding loop never adds the project the page is about. *)
Lemma fill_with_most_viewed_skips p rest : ∀ data out y,
  fill_with_most_viewed p rest data = Ok out →
  y ∈ out → y ∈ data ∨ project_id y ≠ p.
Proof.
  induction rest as [|x rest IH]; intros data out y Hrun Hy; unroll in Hrun.
  - destruct (length data <? 4)%nat; [discriminate|].
    inversion Hrun; subst. by left.
  - destruct (length data <? 4)%nat; [|inversion Hrun; subst; by left].
    destruct (IH _ _ _ Hrun Hy) as [Hin|Hne]; [|by right].
    destruct (project_id x =? p) eqn:Hx; [by left|].
    apply set_add_elem in Hin as [Hin| ->]; [by left|].
    right. by apply Z.eqb_neq.
Qed.

(** When the batch holds too few projects other than [p], the loop runs
    off its end. *)
Lemma fill_with_most_viewed_exhausted p rest : ∀ data,
  (length data + count_others p rest < 4)%nat →
  fill_with_most_viewed p rest data = Raise IndexError.
Proof.
  unfold count_others.
  induction rest as [|x rest IH]; intros data Hfew; unroll; simpl length in *.
  - destruct (length data <? 4)%nat eqn:Hroom; [done|].
    apply Nat.ltb_ge in Hroom. lia.
  - destruct (length data <? 4)%nat eqn:Hroom;
      [|apply Nat.ltb_ge in Hroom; lia].
    apply IH. destruct (project_id x =? p); simpl in *; [lia|].
    pose proof (set_add_length project_eq x data). lia.
Qed.



(** Where the members of the two loops' results come from. *)
Lemma add_linked_projects_origin db ao ls : ∀ data out y,
  add_linked_projects db ao ls data = Ok out → y ∈ out →
  y ∈ data ∨ ∃ l, l ∈ ls ∧ get_project (project_2 l) ao db = Ok y.
Proof.
  induction ls as [|l0 ls IH]; intros data out y Hrun Hy; unroll in Hrun.
  - inversion Hrun; subst. by left.
  - destruct (4 <=? length data)%nat; [inversion Hrun; subst; by left|].
    destruct (get_project (project_2 l0) ao db) as [q0|] eqn:Hq0;
      unroll in Hrun; [|discriminate].
    destruct (IH _ _ _ Hrun Hy) as [Hin|(l & Hl & Hq)].
    + apply set_add_elem in Hin as [Hin| ->]; [by left|].
      right. exists l0. split; [apply list_elem_of_here|done].
    + right. exists l. split; [by apply list_elem_of_further|done].
Qed.

Lemma fill_with_most_viewed_origin p rest : ∀ data out y,
  fill_with_most_viewed p rest data = Ok out → y ∈ out →
  y ∈ data ∨ (y ∈ rest ∧ project_id y ≠ p).
Proof.
  induction rest as [|x rest IH]; intros data out y Hrun Hy; unroll in Hrun.
  - destruct (length data <? 4)%nat; [discriminate|].
    inversion Hrun; subst. by left.
  - destruct (length data <? 4)%nat; [|inversion Hrun; subst; by left].
    destruct (IH _ _ _ Hrun Hy) as [Hin|[Hin Hne]].
    + destruct (project_id x =? p) eqn:Hx; [by left|].
      apply set_add_elem in Hin as [Hin| ->]; [by left|].
      right. split; [apply list_elem_of_here|by apply Z.eqb_neq].
    + right. split; [by apply list_elem_of_further|done].
Qed.

End Loops.

(** ** get_all_project_data *)

Section Selection.
Context {DB : Type} `{M : Models DB}.

(** The stages a request went through when it answers with a list of
    related projects. *)
Lemma all_project_data_stages p req db r :
  links_of (all_project_data p req db) = Some r →
  ∃ archive p_data ls data,
    session req !! "archive" = Some archive ∧
    get_project p (negb (truthy archive)) db = Ok p_data ∧
    get_links_for_project p db = Ok ls ∧
    add_linked_projects db (negb (truthy archive)) ls [] = Ok data ∧
    (((length data <? 4)%nat = true ∧
      ∃ batch, get_most_viewed_projects 8 (negb (truthy archive)) db = Ok batch
               ∧ fill_with_most_viewed p batch data = Ok r)
     ∨ ((length data <? 4)%nat = false ∧ r = data)).
Proof.
  unfold all_project_data, subscript.
  destruct (session req !! "archive") as [archive|]; unroll; [|discriminate].
  destruct (get_project p (negb (truthy archive)) db) as [p_data|] eqn:Hp;
    unroll; [|discriminate].
  intros Hr. exists archive, p_data.
  assert (∃ ls data,
    get_links_for_project p db = Ok ls ∧
    add_linked_projects db (negb (truthy archive)) ls [] = Ok data ∧
    (((length data <? 4)%nat = true ∧
      ∃ batch, get_most_viewed_projects 8 (negb (truthy archive)) db = Ok batch
               ∧ fill_with_most_viewed p batch data = Ok r)
     ∨ ((length data <? 4)%nat = false ∧ r = data)))
    as (ls & data & Hls & Hdata & Hfill);
    [|exists ls, data; repeat split; assumption || reflexivity].
  destruct (is_authenticated (current_user req)
            && String.eqb (role (current_user req)) "student");
    unroll in Hr;
    [destruct (is_liked _ _ db); unroll in Hr; [|discriminate]|];
    (destruct (get_links_for_project p db) as [ls|] eqn:Hls; unroll in Hr;
       [|discriminate];
     destruct (add_linked_projects db _ ls []) as [data|] eqn:Hdata;
       unroll in Hr; [|discriminate];
     exists ls, data; split; [done|]; split; [done|];
     destruct (length data <? 4)%nat eqn:Hroom; unroll in Hr;
       [ left; split; [done|];
         destruct (get_most_viewed_projects 8 _ db) as [batch|] eqn:Hbatch;
           unroll in Hr; [|discriminate];
         exists batch; split; [done|];
         destruct (fill_with_most_viewed p batch data) eqn:Hfill;
           unroll in Hr; [|discriminate];
         simpl in Hr; congruence
       | right; split; [done|]; simpl in Hr; congruence ]).
Qed.

(** Never more than four related projects. *)
Lemma related_at_most_four p req db r :
  links_of (outcome (get_all_project_data p req db)) = Some r →
  (length r ≤ 4)%nat.
Proof.
  intros Hr. apply all_project_data_stages in Hr
    as (archive & p_data & ls & data & _ & _ & _ & Hlinks & Hfill).
  apply add_linked_projects_bound in Hlinks; [|simpl; lia].
  destruct Hfill as [(_ & batch & _ & Hfill)|[_ ->]]; [|done].
  by apply fill_with_most_viewed_bound in Hfill.
Qed.

(** The first link returned for [p] puts the project named by its field
    [project_2] into the result, whatever its field [project_1] is. *)
Lemma first_link_contributed p req db archive l ls r :
  session req !! "archive" = Some archive →
  get_links_for_project p db = Ok (l :: ls) →
  links_of (outcome (get_all_project_data p req db)) = Some r →
  ∃ q, get_project (project_2 l) (negb (truthy archive)) db = Ok q ∧ q ∈ r.
Proof.
  intros Harch Hls Hr. apply all_project_data_stages in Hr
    as (archive' & p_data & ls' & data & Harch' & _ & Hls' & Hlinks & Hfill).
  rewrite Harch in Harch'. inversion Harch'; subst archive'.
  rewrite Hls in Hls'. inversion Hls'; subst ls'.
  unroll in Hlinks. simpl in Hlinks.
  destruct (get_project (project_2 l) (negb (truthy archive)) db) as [q|];
    unroll in Hlinks; [|discriminate].
  exists q. split; [done|].
  assert (q ∈ data) as Hq.
  { eapply add_linked_projects_keeps; [exact Hlinks|].
    rewrite set_add_first. by apply list_elem_of_singleton. }
  destruct Hfill as [(_ & batch & _ & Hfill)|[_ ->]]; [|done].
  by eapply fill_with_most_viewed_keeps.
Qed.

End Selection.

(** ** The catalog of the design document *)

Lemma spec_get_project_found p ao db x :
  spec_get_project p ao db = Ok x →
  x ∈ catalog db ∧ project_id x = p ∧ eligible ao x = true.
Proof.
  unfold spec_get_project.
  destruct (find _ (catalog db)) as [y|] eqn:Hfind; [|discriminate].
  intros [= ->]. apply find_some in Hfind as [Hin Hy].
  apply andb_prop in Hy as [Hid Hel].
  split; [by apply list_elem_of_In|]. split; [by apply Z.eqb_eq|done].
Qed.

Lemma count_others_lt p l x :
  x ∈ l → project_id x = p → (count_others p l < length l)%nat.
Proof.
  unfold count_others. intros Hin Hid.
  induction Hin as [x l|x y l Hin IH]; simpl.
  - rewrite Hid, Z.eqb_refl. simpl.
    pose proof (List.filter_length_le (λ x, negb (project_id x =? p)) l). lia.
  - specialize (IH Hid). destruct (negb (project_id y =? p)); simpl; lia.
Qed.

(** A batch of eight holds the whole eligible catalog when that has at
    most eight projects. *)
Lemma most_viewed_all n ao db :
  (eligible_catalog_size ao db ≤ n)%nat →
  most_viewed n ao db ≡ₚ filter (λ x, Is_true (eligible ao x)) (catalog db).
Proof.
  unfold eligible_catalog_size, most_viewed. intros Hn.
  rewrite take_ge; [apply merge_sort_Permutation|].
  by rewrite merge_sort_Permutation.
Qed.

Lemma spec_project_in_batch p ao db x :
  spec_get_project p ao db = Ok x →
  (eligible_catalog_size ao db ≤ 8)%nat →
  x ∈ most_viewed 8 ao db.
Proof.
  intros Hx Hn. apply spec_get_project_found in Hx as (Hin & _ & Hel).
  rewrite (most_viewed_all 8 ao db Hn).
  apply list_elem_of_filter. split; [by apply Is_true_true|done].
Qed.

Lemma most_viewed_eligible n ao db y :
  y ∈ most_viewed n ao db → eligible ao y = true.
Proof.
  unfold most_viewed. intros Hy. apply subseteq_take in Hy.
  rewrite merge_sort_Permutation in Hy.
  apply list_elem_of_filter in Hy as [Hel _]. by apply Is_true_true.
Qed.

(** With the active-only filter on, every related project is active, and
    there are at most four. *)
Lemma related_active_and_bounded (db : SpecDB) p req r :
  session req !! "archive" = Some (PBool false) →
  links_of (outcome (get_all_project_data p req db)) = Some r →
  (length r ≤ 4)%nat ∧ ∀ y, y ∈ r → is_active y = true.
Proof.
  intros Harch Hr. split; [exact (related_at_most_four p req db r Hr)|].
  apply all_project_data_stages in Hr
    as (archive' & p_data & ls & data & Harch' & _ & _ & Hlinks & Hfill).
  rewrite Harch in Harch'. inversion Harch'; subst archive'. simpl in *.
  assert (∀ y, y ∈ data → is_active y = true) as Hdata.
  { intros y Hy.
    destruct (add_linked_projects_origin _ _ _ _ _ _ Hlinks Hy)
      as [Hnil|(l & _ & Hq)]; [by apply elem_of_nil in Hnil|].
    cbn in Hq. by apply spec_get_project_found in Hq as (_ & _ & Hel). }
  destruct Hfill as [(_ & batch & Hbatch & Hfill)|[_ ->]]; [|done].
  intros y Hy.
  destruct (fill_with_most_viewed_origin _ _ _ _ _ Hfill Hy) as [Hin|[Hin _]];
    [by apply Hdata|].
  cbn in Hbatch. inversion Hbatch; subst batch.
  by apply most_viewed_eligible in Hin.
Qed.

(** ** The scenarios of the design document *)

(** Scenario A: popularity only. *)
Example scenario_A_related :
  related_ids 1 visitor scenario_A = [2; 3; 4; 5].
Proof. vm_compute. reflexivity. Qed.

(** Scenario B: the linked projects 2 and 3 come first. *)
Example scenario_B_related :
  related_ids 1 visitor scenario_B = [2; 3; 4; 5].
Proof. vm_compute. reflexivity. Qed.

(** Scenario D, sequentially: twenty click-throughs from 7 to 8 bring the
    strength of the pair to 1. *)
Example scenario_D_converges :
  get_strength
    (run_reinforcements (replicate 20 (ClickThrough (click "7" "8")))
       scenario_D) 7 8 = 1%Q.
Proof. vm_compute. reflexivity. Qed.

(* ===================================================================== *)
(** ** C1: an exhausted most-viewed batch *)
(* ===================================================================== *)

(** C1. The claim asks that, when the most-viewed batch is exhausted before
    four candidates are collected, the selection ends with the short list
    of min(4, eligible_catalog_size - 1) entries. The code does not: for a
    project [p] of the catalog that has no link, whenever fewer than five
    projects pass the active-only filter the padding loop subscripts the
    batch past its end and the request ends with IndexError. *)
Theorem short_catalog_raises_IndexError
    (db : SpecDB) (p : Z) (req : request) (archive : pyval) (x : Project) :
  session req !! "archive" = Some archive →
  spec_get_project p (negb (truthy archive)) db = Ok x →
  top_link_rows p 4 db = [] →
  (eligible_catalog_size (negb (truthy archive)) db < 5)%nat →
  outcome (get_all_project_data p req db) = Raise IndexError.
Proof.
  intros Harch Hx Hnolink Hsmall.
  assert (fill_with_most_viewed (DB:=SpecDB) p
            (most_viewed 8 (negb (truthy archive)) db) [] = Raise IndexError)
    as Hfill.
  { assert (eligible_catalog_size (negb (truthy archive)) db ≤ 8)%nat
      as Hle by lia.
    apply fill_with_most_viewed_exhausted. simpl.
    pose proof (spec_project_in_batch p _ db x Hx Hle) as Hin.
    apply spec_get_project_found in Hx as (_ & Hid & _).
    pose proof (count_others_lt p _ x Hin Hid) as Hlt.
    assert (length (most_viewed 8 (negb (truthy archive)) db) =
            eligible_catalog_size (negb (truthy archive)) db) as Hlen.
    { unfold eligible_catalog_size.
      by rewrite (most_viewed_all 8 _ db Hle). }
    lia. }
  unfold get_all_project_data, all_project_data, subscript. simpl outcome.
  rewrite Harch. unroll. cbn [get_project spec_models]. rewrite Hx. unroll.
  destruct (is_authenticated (current_user req)
            && String.eqb (role (current_user req)) "student");
    cbn [is_liked get_links_for_project get_most_viewed_projects spec_models
         spec_is_liked]; unroll; unfold links_for_project; rewrite Hnolink;
    cbn [fmap list_fmap]; unroll; simpl length;
    cbn [Nat.ltb Nat.leb]; unroll; apply bind_raise; exact Hfill.
Qed.

(** Three active projects, none linked: the claim promises the two others
    as the related projects of project 1; the request raises IndexError. *)
Lemma short_catalog_raises_IndexError_witness :
  outcome (get_all_project_data 1 visitor small_catalog) = Raise IndexError.
Proof.
  apply (short_catalog_raises_IndexError small_catalog 1 visitor
           (PBool false) (sample_project 1 5 true)).
  - reflexivity.
  - reflexivity.
  - vm_compute. reflexivity.
  - vm_compute. lia.
Defined.

(* ===================================================================== *)
(** ** The links handed to the selection *)
(* ===================================================================== *)

Lemma pair_key_comm a b : pair_key a b = pair_key b a.
Proof. unfold pair_key. by rewrite Z.min_comm, Z.max_comm. Qed.




(** A row of [top_link_rows] is a stored link that involves [p]. *)
Lemma top_link_rows_stored p n db l :
  l ∈ top_link_rows p n db →
  ∃ k v, links db !! k = Some v ∧ l = mkLink (k.1) (k.2) v
         ∧ involves p l = true.
Proof.
  unfold top_link_rows, link_rows. intros Hl. apply subseteq_take in Hl.
  rewrite merge_sort_Permutation in Hl.
  apply list_elem_of_filter in Hl as [Hinv Hl].
  apply list_elem_of_fmap in Hl as ([k v] & -> & Hkv).
  apply elem_of_map_to_list in Hkv.
  exists k, v. split; [done|]. split; [done|]. by apply Is_true_true.
Qed.

(** In a well-formed store the other member of a link of [p] is not [p]. *)
Lemma other_project_differs db p n l :
  links_well_formed db → l ∈ top_link_rows p n db → other_project p l ≠ p.
Proof.
  intros Hwf Hl. apply top_link_rows_stored in Hl as (k & v & Hk & -> & _).
  apply Hwf in Hk. unfold other_project. simpl.
  destruct (k.1 =? p) eqn:Hp; [apply Z.eqb_eq in Hp|apply Z.eqb_neq in Hp]; lia.
Qed.



(** The reinforcements keep the store well formed. *)
Lemma reinforce_well_formed a b delta db db' v :
  reinforce a b delta db = Ok (db', v) →
  links_well_formed db → links_well_formed db'.
Proof.
  unfold reinforce.
  destruct (a =? b) eqn:Hab; [discriminate|]. apply Z.eqb_neq in Hab.
  destruct (known db a && known db b); [|discriminate].
  intros [= <- <-] Hwf k w. simpl.
  destruct (decide (pair_key a b = k)) as [<-|Hk].
  - intros _. unfold pair_key. simpl. lia.
  - rewrite lookup_insert_ne by done. apply Hwf.
Qed.

Lemma initial_well_formed projects : links_well_formed (initial projects).
Proof. intros k v. simpl. by rewrite lookup_empty. Qed.

Lemma linked_catalog_well_formed : links_well_formed linked_catalog.
Proof.
  intros k v Hk. simpl in Hk.
  apply lookup_singleton_Some in Hk as [<- _]. simpl. lia.
Qed.

(* ===================================================================== *)
(** ** C3: the project itself is not among its related projects *)
(* ===================================================================== *)

(** C3. With the active-only filter on, the related projects of [p] are at
    most four, all of them active, and none of them is [p] itself; this
    holds for the entries of the link step as for those of the padding.
    The handler compares only the padding with [p_id]; for the links it
    relies on the data layer, which hands over the other member of each
    pair, in a store that keeps every pair with the smaller id first. *)
Theorem related_never_lists_the_project
    (db : SpecDB) (p : Z) (req : request) (archive : pyval)
    (r : list Project) :
  links_well_formed db →
  session req !! "archive" = Some archive →
  truthy archive = false →
  links_of (outcome (get_all_project_data p req db)) = Some r →
  (length r ≤ 4)%nat
  ∧ ∀ y, y ∈ r → project_id y ≠ p ∧ is_active y = true.
Proof.
  intros Hwf Harch Hfalse Hr.
  split; [exact (related_at_most_four p req db r Hr)|].
  apply all_project_data_stages in Hr
    as (archive' & p_data & ls & data & Harch' & _ & Hls & Hlinks & Hfill).
  rewrite Harch in Harch'. inversion Harch'; subst archive'.
  rewrite Hfalse in Hlinks, Hfill. cbn [negb] in Hlinks, Hfill.
  change (Ok (links_for_project p 4 db) = Ok ls) in Hls.
  inversion Hls; subst ls.
  assert (∀ y, y ∈ data → project_id y ≠ p ∧ is_active y = true) as Hdata.
  { intros y Hy.
    destruct (add_linked_projects_origin _ _ _ _ _ _ Hlinks Hy)
      as [Hnil|(l & Hl & Hq)]; [by apply elem_of_nil in Hnil|].
    apply list_elem_of_fmap in Hl as (l0 & -> & Hl0).
    change (spec_get_project (other_project p l0) true db = Ok y) in Hq.
    apply spec_get_project_found in Hq as (_ & Hid & Hel).
    split; [|done]. rewrite Hid. by eapply other_project_differs. }
  destruct Hfill as [(_ & batch & Hbatch & Hfill)|[_ ->]]; [|done].
  intros y Hy.
  destruct (fill_with_most_viewed_origin _ _ _ _ _ Hfill Hy) as [Hin|[Hin Hne]];
    [by apply Hdata|].
  split; [done|].
  change (Ok (most_viewed 8 true db) = Ok batch) in Hbatch.
  inversion Hbatch; subst batch.
  by apply most_viewed_eligible in Hin.
Qed.

(** Projects 1 and 2 are linked and the pair is stored as (1, 2): the
    related projects of project 2 are 1, 3, 4 and 5. *)
Lemma related_never_lists_the_project_witness :
  related_ids 2 visitor linked_catalog = [1; 3; 4; 5]
  ∧ (length [sample_project 1 1 true; sample_project 3 8 true;
             sample_project 4 7 true; sample_project 5 6 true] ≤ 4)%nat
  ∧ ∀ y, y ∈ [sample_project 1 1 true; sample_project 3 8 true;
               sample_project 4 7 true; sample_project 5 6 true] →
         project_id y ≠ 2 ∧ is_active y = true.
Proof.
  split; [vm_compute; reflexivity|].
  apply (related_never_lists_the_project linked_catalog 2 visitor
           (PBool false)).
  - exact linked_catalog_well_formed.
  - reflexivity.
  - reflexivity.
  - vm_compute. reflexivity.
Defined.

(* ===================================================================== *)
(** ** C7: symmetry of the affinity, and what a link contributes *)
(* ===================================================================== *)

(** The design document's [top_links] names the other member of each
    pair, which is the field [project_2] of a stored row that has [p] in
    [project_1] and its field [project_1] otherwise. *)
Lemma project_2_is_other p l :
  project_1 l = p → project_2 l = other_project p l.
Proof. intros Hp. unfold other_project. by rewrite Hp, Z.eqb_refl. Qed.

Lemma project_2_is_not_other p l :
  project_1 l ≠ p → project_2 l = p → other_project p l ≠ project_2 l.
Proof.
  intros Hne Hp. unfold other_project.
  rewrite (proj2 (Z.eqb_neq _ _) Hne). congruence.
Qed.



(* ===================================================================== *)
(** ** The affinity store of the design document *)
(* ===================================================================== *)

Lemma as_project_id_str x : as_project_id (PStr (str x)) = Some x.
Proof.
  unfold as_project_id, str.
  rewrite NilZero.isi.
  - simpl. by rewrite DecimalZ.of_to.
  - destruct x; simpl; try discriminate.
    intros [= Hnil]. by apply DecimalPos.Unsigned.to_uint_nonnil in Hnil.
  - destruct x; simpl; try discriminate.
    intros [= Hnil]. by apply DecimalPos.Unsigned.to_uint_nonnil in Hnil.
Qed.

Lemma clamp_bounds x : (0 <= clamp x)%Q ∧ (clamp x <= 1)%Q.
Proof.
  unfold clamp.
  destruct (Qle_bool x 0) eqn:Hlow; [split; [apply Qle_refl|discriminate]|].
  destruct (Qle_bool 1 x) eqn:Hhigh; [split; [discriminate|apply Qle_refl]|].
  assert (¬ (x <= 0)%Q) as Hx0
    by (intros Hle; apply Qle_bool_iff in Hle; congruence).
  assert (¬ (1 <= x)%Q) as Hx1
    by (intros Hle; apply Qle_bool_iff in Hle; congruence).
  split; apply Qlt_le_weak; by apply Qnot_le_lt.
Qed.

Lemma get_strength_bounded db a b :
  strengths_bounded db →
  (0 <= get_strength db a b)%Q ∧ (get_strength db a b <= 1)%Q.
Proof.
  intros Hb. unfold get_strength.
  destruct (links db !! pair_key a b) as [v|] eqn:Hv; simpl.
  - by apply (Hb _ _ Hv).
  - split; discriminate.
Qed.

Lemma get_strength_with_links db m a b :
  get_strength (with_links db m) a b = default 0%Q (m !! pair_key a b).
Proof. reflexivity. Qed.

(** What a successful reinforcement leaves behind. *)
Lemma reinforce_ok a b delta db :
  a ≠ b → known db a = true → known db b = true →
  reinforce a b delta db =
    Ok (with_links db
          (<[pair_key a b := clamp (get_strength db a b + delta)]> (links db)),
        clamp (get_strength db a b + delta)).
Proof.
  intros Hab Ha Hb. unfold reinforce.
  apply Z.eqb_neq in Hab. by rewrite Hab, Ha, Hb.
Qed.

Lemma reinforce_bounded a b delta db db' v :
  reinforce a b delta db = Ok (db', v) →
  strengths_bounded db → strengths_bounded db'.
Proof.
  unfold reinforce.
  destruct (a =? b); [discriminate|].
  destruct (known db a && known db b); [|discriminate].
  intros [= <- <-] Hb k w. simpl.
  destruct (decide (pair_key a b = k)) as [->|Hk].
  - rewrite lookup_insert_eq. intros [= <-]. apply clamp_bounds.
  - rewrite lookup_insert_ne by done. apply Hb.
Qed.

Lemma spec_update_match_percent_bounded a b delta db db' :
  spec_update_match_percent a b delta db = Ok db' →
  strengths_bounded db → strengths_bounded db'.
Proof.
  unfold spec_update_match_percent.
  destruct (as_project_id a) as [x|]; [|discriminate].
  destruct (as_project_id b) as [y|]; [|discriminate].
  destruct (reinforce x y delta db) as [[db1 v]|] eqn:Hre; unroll;
    [|discriminate].
  intros [= <-]. by eapply reinforce_bounded.
Qed.

Lemma apply_reinforcement_bounded (db : SpecDB) ev :
  strengths_bounded db → strengths_bounded (apply_reinforcement db ev).
Proof.
  intros Hb. destruct ev as [req|p1 p2 amount req]; simpl.
  - unfold project_page.
    destruct (args req !! "from") as [from|]; [|done].
    destruct (args req !! "project_id") as [to|]; [|done].
    destruct (update_match_percent _ _ _ db) as [db'|] eqn:Hup; [|done].
    simpl. by eapply spec_update_match_percent_bounded.
  - unfold update_recommendations.
    destruct (update_match_percent _ _ _ db) as [db'|] eqn:Hup; [|done].
    simpl. by eapply spec_update_match_percent_bounded.
Qed.

Lemma run_reinforcements_bounded evs : ∀ db : SpecDB,
  strengths_bounded db → strengths_bounded (run_reinforcements evs db).
Proof.
  unfold run_reinforcements.
  induction evs as [|ev evs IH]; intros db Hb; simpl; [done|].
  apply IH. by apply apply_reinforcement_bounded.
Qed.

Lemma initial_bounded projects : strengths_bounded (initial projects).
Proof. intros k v. simpl. by rewrite lookup_empty. Qed.

(* ===================================================================== *)
(** ** C5: strengths stay within [0, 1] *)
(* ===================================================================== *)

(** C5. After any finite sequence of click-throughs (+0.05 each) and manual
    adjustments (any amount, of either sign), sent by any callers to a
    store that started without links, the strength of every pair lies
    between 0 and 1. *)
Theorem strength_stays_clamped
    (projects : list Project) (evs : list reinforcement) (a b : Z) :
  (0 <= get_strength (run_reinforcements evs (initial projects)) a b)%Q
  ∧ (get_strength (run_reinforcements evs (initial projects)) a b <= 1)%Q.
Proof.
  apply get_strength_bounded, run_reinforcements_bounded, initial_bounded.
Qed.

(* ===================================================================== *)
(** ** C2: a click-through from a project to itself *)
(* ===================================================================== *)

(** C2. A request to the project page whose [from] and [project_id] name
    the same project [x] ends with InvalidPair and leaves the database as
    it was: no reinforcement is applied. The handler has no check of its
    own; the pair is rejected by the store and the exception passes
    through. Every id is named by its decimal string
    ([as_project_id_str]). *)
Theorem self_click_rejected
    (db : SpecDB) (req : request) (from to : string) (x : Z) :
  args req !! "from" = Some from →
  args req !! "project_id" = Some to →
  as_project_id (PStr from) = Some x →
  as_project_id (PStr to) = Some x →
  project_page req db = mkReply (Raise InvalidPair) db [].
Proof.
  intros Hfrom Hto Hx Hx'. unfold project_page. rewrite Hfrom, Hto.
  cbn [update_match_percent spec_models]. unfold spec_update_match_percent.
  rewrite Hx, Hx'. unfold reinforce. by rewrite Z.eqb_refl.
Qed.

(** Scenario C of the design document. *)
Lemma self_click_rejected_witness :
  project_page (click "10" "10") linked_catalog
  = mkReply (Raise InvalidPair) linked_catalog [].
Proof.
  apply (self_click_rejected linked_catalog (click "10" "10") "10" "10" 10).
  - reflexivity.
  - reflexivity.
  - reflexivity.
  - reflexivity.
Defined.

(* ===================================================================== *)
(** ** C6: one reinforcement of 0.05 per click-through *)
(* ===================================================================== *)

(** For every data layer, a request that carries both arguments makes one
    call of update_match_percent, with the two arguments as they came and
    the increment 0.05. *)
Lemma project_page_one_call {DB} `{Models DB}
    (req : request) (db : DB) (from to : string) :
  args req !! "from" = Some from →
  args req !! "project_id" = Some to →
  project_page req db =
    match update_match_percent (PStr from) (PStr to) (5 # 100)%Q db with
    | Ok db' => mkReply (Ok project_html) db' []
    | Raise e => mkReply (Raise e) db []
    end.
Proof. intros Hfrom Hto. unfold project_page. by rewrite Hfrom, Hto. Qed.

(** C6. A click-through from project [A] to another project [B], both in
    the catalog, renders the page and applies one reinforcement of 0.05 to
    the pair: its strength, read in either order, becomes the clamped sum
    of the old strength and 0.05, and no other pair changes. *)
Theorem click_through_adds_increment
    (db : SpecDB) (req : request) (from to : string) (A B : Z) :
  args req !! "from" = Some from →
  args req !! "project_id" = Some to →
  as_project_id (PStr from) = Some A →
  as_project_id (PStr to) = Some B →
  A ≠ B → known db A = true → known db B = true →
  outcome (project_page req db) = Ok project_html
  ∧ get_strength (db_after (project_page req db)) A B
    = clamp (get_strength db A B + (5 # 100))%Q
  ∧ get_strength (db_after (project_page req db)) B A
    = clamp (get_strength db A B + (5 # 100))%Q
  ∧ ∀ c d, pair_key c d ≠ pair_key A B →
      get_strength (db_after (project_page req db)) c d = get_strength db c d.
Proof.
  intros Hfrom Hto HA HB Hne HkA HkB.
  rewrite (project_page_one_call req db from to Hfrom Hto).
  cbn [update_match_percent spec_models]. unfold spec_update_match_percent.
  rewrite HA, HB, (reinforce_ok A B _ db Hne HkA HkB). unroll. simpl.
  split; [done|].
  split; [by rewrite get_strength_with_links, lookup_insert_eq|].
  split.
  - by rewrite get_strength_with_links, (pair_key_comm B A), lookup_insert_eq.
  - intros c d Hcd. by rewrite get_strength_with_links, lookup_insert_ne.
Qed.

(** A visitor goes from project 1 to project 3, not linked so far: the
    pair gets strength 0.05. *)
Lemma click_through_adds_increment_witness :
  outcome (project_page (click "1" "3") linked_catalog) = Ok project_html
  ∧ get_strength (db_after (project_page (click "1" "3") linked_catalog)) 1 3
    = clamp (get_strength linked_catalog 1 3 + (5 # 100))%Q
  ∧ get_strength (db_after (project_page (click "1" "3") linked_catalog)) 3 1
    = clamp (get_strength linked_catalog 1 3 + (5 # 100))%Q
  ∧ ∀ c d, pair_key c d ≠ pair_key 1 3 →
      get_strength (db_after (project_page (click "1" "3") linked_catalog)) c d
      = get_strength linked_catalog c d.
Proof.
  apply (click_through_adds_increment linked_catalog (click "1" "3")
           "1" "3" 1 3).
  - reflexivity.
  - reflexivity.
  - reflexivity.
  - reflexivity.
  - lia.
  - reflexivity.
  - reflexivity.
Defined.

(* ===================================================================== *)
(** ** C4: failures of the store and what the caller sees *)
(* ===================================================================== *)

(** C4, as stated, fails. With a store that cannot be reached, the
    click-through on the project page does not render the page: the
    exception leaves the handler. And register_user_data answers the
    failure with status 400 and the failure message. *)
Lemma store_failure_reaches_caller :
  project_page (click "1" "3") unreachable
  = mkReply (Raise StoreUnavailable) unreachable []
  ∧ outcome (register_user_data 4 visitor unreachable)
    = Ok (register_failure 4)
  ∧ status (register_failure 4) = 400
  ∧ printed (register_user_data 4 visitor unreachable) = [].
Proof. repeat split. Qed.

(** C4, amended. When its store operation fails, add_view prints a
    failure line and returns an empty body with no error status, and the
    database is as before; so does update_recommendations when its store
    operation fails. register_user_data, when counting the view fails or
    when recording the click fails, answers with status 400 and a body
    that carries the failure message, and prints nothing. *)
Theorem telemetry_failures_answered {DB} `{Models DB}
    (p p1 p2 : Z) (amount : Q) (req : request) (db : DB) :
  ((∃ e, add_view_count p 1 db = Raise e) →
   add_view p req db
   = mkReply (Ok (bare (Text ""))) db
       ["Failed to count a view for project " +:+ str p +:+ "."])
  ∧ ((∃ e, update_match_percent (PInt p1) (PInt p2) amount db = Raise e) →
     update_recommendations p1 p2 amount req db
     = mkReply (Ok (bare (Text ""))) db
         ["Failed to update recommendations for project " +:+ str p1
          +:+ " and project " +:+ str p2 +:+ "."])
  ∧ ((∃ e, add_view_count p 1 db = Raise e)
     ∨ (∃ db1 e,
          add_view_count p 1 db = Ok db1
          ∧ dict_get (session req) "session_id" ≠ PNone
          ∧ add_project_click p (dict_get (session req) "session_id") db1
            = Raise e) →
     outcome (register_user_data p req db)
     = Ok {| resp_body :=
               Jsonify [("success", JBool true);
                        ("message",
                         JStr ("Failed to register user behaviour for project "
                               +:+ str p +:+ "."))];
             status := 400;
             headers := [("ContentType", "application/json")] |}
     ∧ printed (register_user_data p req db) = []).
Proof.
  split; [|split].
  - intros [e Hview]. unfold add_view. by rewrite Hview.
  - intros [e Hupdate]. unfold update_recommendations. by rewrite Hupdate.
  - unfold register_user_data.
    intros [[e Hview]|(db1 & e & Hview & Hsid & Hclick)]; rewrite Hview;
      [done|].
    destruct (dict_get (session req) "session_id") eqn:Hget;
      [done|by rewrite Hclick..].
Qed.

(** A store that cannot be reached, for the three handlers; and a store
    that counts the view and cannot record the click, for
    register_user_data. *)
Lemma telemetry_failures_answered_witness :
  add_view 4 visitor unreachable
  = mkReply (Ok (bare (Text ""))) unreachable
      ["Failed to count a view for project 4."]
  ∧ update_recommendations 1 3 (1 # 2) visitor unreachable
    = mkReply (Ok (bare (Text ""))) unreachable
        ["Failed to update recommendations for project 1 and project 3."]
  ∧ (outcome (register_user_data 4 visitor unreachable)
     = Ok (register_failure 4)
     ∧ printed (register_user_data 4 visitor unreachable) = [])
  ∧ (outcome (register_user_data 4 tracked_visitor (mkViews 0))
     = Ok (register_failure 4)
     ∧ printed (register_user_data 4 tracked_visitor (mkViews 0)) = []).
Proof.
  destruct (telemetry_failures_answered 4 1 3 (1 # 2) visitor unreachable)
    as (Hview & Hupdate & Hregister).
  destruct (telemetry_failures_answered 4 1 3 (1 # 2) tracked_visitor
              (mkViews 0)) as (_ & _ & Hclick).
  split; [apply Hview; by exists StoreUnavailable|].
  split; [apply Hupdate; by exists StoreUnavailable|].
  split.
  - apply Hregister. left. by exists StoreUnavailable.
  - apply Hclick. right. exists (mkViews 1), StoreUnavailable.
    split; [reflexivity|]. split; [discriminate|reflexivity].
Defined.

(* ===================================================================== *)
(** ** C8: who may adjust an affinity *)
(* ===================================================================== *)

(** C8, as stated, fails: a caller who is not logged in adjusts the
    strength of the pair (1, 3) from 0 to 0.5 and is answered success. *)
Lemma anonymous_adjustment_applied :
  is_authenticated (current_user visitor) = false
  ∧ get_strength linked_catalog 1 3 = 0%Q
  ∧ outcome (update_recommendations 1 3 (1 # 2) visitor linked_catalog)
    = Ok success_200
  ∧ get_strength
      (db_after (update_recommendations 1 3 (1 # 2) visitor linked_catalog))
      1 3 = (1 # 2)%Q.
Proof. repeat split. Qed.

(** C8, amended. update_recommendations reads nothing of the caller: two
    requests for the same adjustment on the same database get the same
    reply and leave the same database, whoever sends them. *)
Theorem update_recommendations_ignores_caller {DB} `{Models DB}
    (p1 p2 : Z) (amount : Q) (req req' : request) (db : DB) :
  update_recommendations p1 p2 amount req db
  = update_recommendations p1 p2 amount req' db.
Proof. reflexivity. Qed.

(* ===================================================================== *)
(** ** C9: the failure reply of register_user_data *)
(* ===================================================================== *)

(** C9. When counting the view raises, or when it succeeds, the session
    has a session id and recording the click raises, register_user_data
    answers with status 400 and a JSON body that holds ['success': True]
    next to the failure message. *)
Theorem register_failure_says_success {DB} `{Models DB}
    (p : Z) (req : request) (db : DB) :
  (∃ e, add_view_count p 1 db = Raise e)
  ∨ (∃ db1 e,
       add_view_count p 1 db = Ok db1
       ∧ dict_get (session req) "session_id" ≠ PNone
       ∧ add_project_click p (dict_get (session req) "session_id") db1
         = Raise e) →
  outcome (register_user_data p req db)
  = Ok {| resp_body :=
            Jsonify [("success", JBool true);
                     ("message",
                      JStr ("Failed to register user behaviour for project "
                            +:+ str p +:+ "."))];
          status := 400;
          headers := [("ContentType", "application/json")] |}.
Proof.
  unfold register_user_data.
  intros [[e Hview]|(db1 & e & Hview & Hsid & Hclick)]; rewrite Hview;
    [done|].
  destruct (dict_get (session req) "session_id") eqn:Hget;
    [done|by rewrite Hclick..].
Qed.

Lemma register_failure_says_success_witness :
  outcome (register_user_data 4 visitor unreachable)
  = Ok {| resp_body :=
            Jsonify [("success", JBool true);
                     ("message",
                      JStr "Failed to register user behaviour for project 4.")];
          status := 400;
          headers := [("ContentType", "application/json")] |}.
Proof.
  apply (register_failure_says_success 4 visitor unreachable).
  left. exists StoreUnavailable. reflexivity.
Defined.

(* ===================================================================== *)
(** ** C10: the session key read without a default *)
(* ===================================================================== *)

(** C10. When the session has no key ["archive"], get_all_project_data
    raises KeyError before it reads anything from the database, whereas
    the endpoints that read the key with [session.get] take the
    active-only filter. *)
Theorem missing_archive_key_raises {DB} `{Models DB}
    (p : Z) (req : request) (db : DB) :
  session req !! "archive" = None →
  get_all_project_data p req db = mkReply (Raise (KeyError "archive")) db []
  ∧ active_only_of_get req = true.
Proof.
  intros Hmiss.
  unfold get_all_project_data, all_project_data, subscript, active_only_of_get,
    dict_get.
  by rewrite Hmiss.
Qed.

Lemma missing_archive_key_raises_witness :
  get_all_project_data 1 newcomer linked_catalog
  = mkReply (Raise (KeyError "archive")) linked_catalog []
  ∧ active_only_of_get newcomer = true.
Proof.
  apply (missing_archive_key_raises 1 newcomer linked_catalog).
  reflexivity.
Defined.

(* ===================================================================== *)
(** * Further properties of the handlers *)
(* ===================================================================== *)

(** ** The related projects of get_all_project_data *)

Section MoreSelection.
Context {DB : Type} `{M : Models DB}.

Lemma fill_with_most_viewed_full p rest : ∀ data out,
  fill_with_most_viewed p rest data = Ok out → (4 ≤ length out)%nat.
Proof.
  induction rest as [|x rest IH]; intros data out Hrun; unroll in Hrun.
  - destruct (length data <? 4)%nat eqn:Hroom; [discriminate|].
    inversion Hrun; subst. by apply Nat.ltb_ge.
  - destruct (length data <? 4)%nat eqn:Hroom.
    + by eapply IH.
    + inversion Hrun; subst. by apply Nat.ltb_ge.
Qed.

Lemma add_linked_projects_full db ao ls1 ls2 : ∀ data out,
  add_linked_projects db ao ls1 data = Ok out → (4 ≤ length out)%nat →
  add_linked_projects db ao (ls1 ++ ls2) data = Ok out.
Proof.
  induction ls1 as [|l ls1 IH]; intros data out Hrun Hfull; unroll in Hrun.
  - inversion Hrun; subst. cbn [app]. destruct ls2 as [|l2 ls2]; [done|].
    unroll. by rewrite (proj2 (Nat.leb_le _ _) Hfull).
  - cbn [app]. unroll. destruct (4 <=? length data)%nat; [done|].
    destruct (get_project (project_2 l) ao db) as [q|]; unroll in Hrun;
      unroll; [|discriminate].
    by apply IH.
Qed.

End MoreSelection.

(** X1. A request for the data of a project that is answered at all lists
    exactly four related projects: never fewer, never more. *)
Theorem related_exactly_four {DB} `{Models DB}
    (p : Z) (req : request) (db : DB) (r : list Project) :
  links_of (outcome (get_all_project_data p req db)) = Some r →
  length r = 4%nat.
Proof.
  intros Hr. pose proof (related_at_most_four p req db r Hr) as Hmost.
  apply all_project_data_stages in Hr
    as (archive & p_data & ls & data & _ & _ & _ & _ & Hfill).
  destruct Hfill as [(_ & batch & _ & Hfill)|[Hroom ->]].
  - apply fill_with_most_viewed_full in Hfill. lia.
  - apply Nat.ltb_ge in Hroom. lia.
Qed.

Lemma related_exactly_four_witness :
  length [sample_project 2 9 true; sample_project 3 8 true;
          sample_project 4 7 true; sample_project 5 6 true] = 4%nat.
Proof.
  apply (related_exactly_four 1 visitor linked_catalog).
  vm_compute. reflexivity.
Defined.

(** X2. Every related project in a reply is either the project fetched for
    the field [project_2] of one of the links returned for [p], or an entry
    of the most-viewed batch whose id is not [p]. *)
Theorem related_origin {DB} `{Models DB}
    (p : Z) (req : request) (db : DB) (archive : pyval)
    (ls : list Link) (r : list Project) (y : Project) :
  session req !! "archive" = Some archive →
  get_links_for_project p db = Ok ls →
  links_of (outcome (get_all_project_data p req db)) = Some r →
  y ∈ r →
  (∃ l, l ∈ ls ∧ get_project (project_2 l) (negb (truthy archive)) db = Ok y)
  ∨ (∃ batch,
       get_most_viewed_projects 8 (negb (truthy archive)) db = Ok batch
       ∧ y ∈ batch ∧ project_id y ≠ p).
Proof.
  intros Harch Hls Hr Hy. apply all_project_data_stages in Hr
    as (archive' & p_data & ls' & data & Harch' & _ & Hls' & Hlinks & Hfill).
  rewrite Harch in Harch'. inversion Harch'; subst archive'.
  rewrite Hls in Hls'. inversion Hls'; subst ls'.
  assert (y ∈ data →
          ∃ l, l ∈ ls
               ∧ get_project (project_2 l) (negb (truthy archive)) db = Ok y)
    as Hdata.
  { intros Hin.
    destruct (add_linked_projects_origin _ _ _ _ _ _ Hlinks Hin)
      as [Hnil|Hl]; [by apply elem_of_nil in Hnil|done]. }
  destruct Hfill as [(_ & batch & Hbatch & Hfill)|[_ ->]]; [|left; auto].
  destruct (fill_with_most_viewed_origin _ _ _ _ _ Hfill Hy) as [Hin|[Hin Hne]];
    [left; auto|].
  right. by exists batch.
Qed.

Lemma related_origin_witness :
  (∃ l, l ∈ [mkLink 1 2 (9 # 10)]
        ∧ get_project (project_2 l) (negb (truthy (PBool false)))
            linked_catalog = Ok (sample_project 3 8 true))
  ∨ (∃ batch,
       get_most_viewed_projects 8 (negb (truthy (PBool false))) linked_catalog
       = Ok batch
       ∧ sample_project 3 8 true ∈ batch
       ∧ project_id (sample_project 3 8 true) ≠ 1).
Proof.
  apply (related_origin 1 visitor linked_catalog (PBool false)
           [mkLink 1 2 (9 # 10)]
           [sample_project 2 9 true; sample_project 3 8 true;
            sample_project 4 7 true; sample_project 5 6 true]).
  - reflexivity.
  - vm_compute. reflexivity.
  - vm_compute. reflexivity.
  - apply list_elem_of_In. simpl. tauto.
Defined.

(** X3. When the links of [p] already give four projects, the reply lists
    exactly these: the most-viewed batch plays no part, whatever
    get_most_viewed_projects would answer. *)
Theorem four_links_need_no_batch {DB} `{Models DB}
    (p : Z) (req : request) (db : DB) (archive : pyval) (x : Project)
    (ls : list Link) (data : list Project) :
  session req !! "archive" = Some archive →
  get_project p (negb (truthy archive)) db = Ok x →
  (is_authenticated (current_user req)
   && String.eqb (role (current_user req)) "student" = false
   ∨ ∃ l, is_liked (project_id x) (user_id (current_user req)) db = Ok l) →
  get_links_for_project p db = Ok ls →
  add_linked_projects db (negb (truthy archive)) ls [] = Ok data →
  length data = 4%nat →
  links_of (outcome (get_all_project_data p req db)) = Some data.
Proof.
  intros Harch Hx Hliked Hls Hlinks Hfour.
  unfold get_all_project_data, all_project_data, subscript. simpl outcome.
  rewrite Harch. unroll. rewrite Hx. unroll.
  assert ((length data <? 4)%nat = false) as Hroom
    by (apply Nat.ltb_ge; lia).
  destruct (is_authenticated (current_user req)
            && String.eqb (role (current_user req)) "student").
  - destruct Hliked as [?|[l Hl]]; [discriminate|].
    rewrite Hl. unroll. rewrite Hls. unroll. rewrite Hlinks. unroll.
    by rewrite Hroom.
  - unroll. rewrite Hls. unroll. rewrite Hlinks. unroll. by rewrite Hroom.
Qed.

Lemma four_links_need_no_batch_witness :
  links_of (outcome (get_all_project_data 1 visitor star_catalog))
  = Some [sample_project 2 2 true; sample_project 3 3 true;
          sample_project 4 4 true; sample_project 5 5 true].
Proof.
  apply (four_links_need_no_batch 1 visitor star_catalog (PBool false)
           (sample_project 1 1 true)
           [mkLink 1 2 (9 # 10); mkLink 1 3 (8 # 10);
            mkLink 1 4 (7 # 10); mkLink 1 5 (6 # 10)]).
  - reflexivity.
  - reflexivity.
  - left. reflexivity.
  - vm_compute. reflexivity.
  - vm_compute. reflexivity.
  - reflexivity.
Defined.

(** X4. The loop over the links stops at four collected projects: links
    that come after that point are never fetched, so they change nothing,
    not even when their project cannot be fetched. *)
Theorem links_past_the_fourth_ignored {DB} `{Models DB}
    (db : DB) (active_only : bool) (ls1 ls2 : list Link)
    (data : list Project) :
  add_linked_projects db active_only ls1 [] = Ok data →
  length data = 4%nat →
  add_linked_projects db active_only (ls1 ++ ls2) [] = Ok data.
Proof.
  intros Hrun Hfour. apply add_linked_projects_full; [done|lia].
Qed.

(** The fifth link names project 99, which the catalog does not have. *)
Lemma links_past_the_fourth_ignored_witness :
  add_linked_projects star_catalog true
    ([mkLink 1 2 (9 # 10); mkLink 1 3 (8 # 10); mkLink 1 4 (7 # 10);
      mkLink 1 5 (6 # 10)] ++ [mkLink 1 99 (1 # 10)]) []
  = Ok [sample_project 2 2 true; sample_project 3 3 true;
        sample_project 4 4 true; sample_project 5 5 true]
  ∧ get_project 99 true star_catalog = Raise NotFound.
Proof.
  split; [|reflexivity].
  apply (links_past_the_fourth_ignored star_catalog true).
  - vm_compute. reflexivity.
  - reflexivity.
Defined.

(** ** The research group of get_all_project_data *)

(** X5. The research-group lookup can only fill the research group of the
    reply. Whatever it answers, and also when it raises, the request ends
    the same way: with the same exception, or with the same project data
    and the same related projects. *)
Theorem research_group_lookup_is_harmless {DB} (M : Models DB)
    (lookup : string → DB → result ResearchGroup)
    (p : Z) (req : request) (db : DB) :
  without_group
    (outcome (get_all_project_data (M := with_research_group M lookup)
                p req db))
  = without_group (outcome (get_all_project_data (M := M) p req db)).
Proof.
  unfold get_all_project_data, all_project_data, subscript. simpl outcome.
  destruct (session req !! "archive") as [archive|]; unroll; [|done].
  cbn [get_project get_links_for_project get_most_viewed_projects is_liked
       get_research_group with_research_group].
  change (@add_linked_projects DB (with_research_group M lookup))
    with (@add_linked_projects DB M).
  change (@fill_with_most_viewed DB (with_research_group M lookup))
    with (@fill_with_most_viewed DB M).
  destruct (get_project p (negb (truthy archive)) db) as [x|]; unroll; [|done].
  destruct (is_authenticated (current_user req)
            && String.eqb (role (current_user req)) "student"); unroll;
    [destruct (is_liked _ _ db); unroll; [|done]|];
    (destruct (get_links_for_project p db) as [ls|]; unroll; [|done];
     destruct (add_linked_projects db _ ls []) as [data|]; unroll; [|done];
     destruct (length data <? 4)%nat; unroll;
       [ destruct (get_most_viewed_projects 8 _ db) as [batch|]; unroll;
           [|done];
         destruct (fill_with_most_viewed p batch data); unroll; done
       | done ]).
Qed.

(** ** register_user_data *)

(** X6. register_user_data never raises and its body always says
    ['success': True]. It answers with status 200 and nothing else in the
    body exactly when the view was counted and either the session has no
    session id or the click was recorded; in every other case it answers
    with status 400 and the failure message. *)
Theorem register_user_data_answers {DB} `{Models DB}
    (p : Z) (req : request) (db : DB) :
  ∃ r rest,
    outcome (register_user_data p req db) = Ok r
    ∧ resp_body r = Jsonify (("success", JBool true) :: rest)
    ∧ (status r = 200 ∧ rest = []
       ∨ status r = 400
         ∧ rest = [("message",
                    JStr ("Failed to register user behaviour for project "
                          +:+ str p +:+ "."))])
    ∧ (status r = 200 ↔
       ∃ db1, add_view_count p 1 db = Ok db1
              ∧ (dict_get (session req) "session_id" = PNone
                 ∨ ∃ db2, add_project_click p
                            (dict_get (session req) "session_id") db1
                          = Ok db2)).
Proof.
  unfold register_user_data.
  destruct (add_view_count p 1 db) as [db1|e] eqn:Hview.
  - destruct (dict_get (session req) "session_id") as [|b|z|sid] eqn:Hsid.
    + exists success_200, []. repeat split; eauto.
    + destruct (add_project_click p (PBool b) db1) as [db2|e] eqn:Hclick.
      * exists success_200, []. repeat split; eauto 6.
      * eexists (register_failure p), _. repeat split; [by right|done|].
        intros (db1' & [= <-] & [?|[db2 Hc]]); congruence.
    + destruct (add_project_click p (PInt z) db1) as [db2|e] eqn:Hclick.
      * exists success_200, []. repeat split; eauto 6.
      * eexists (register_failure p), _. repeat split; [by right|done|].
        intros (db1' & [= <-] & [?|[db2 Hc]]); congruence.
    + destruct (add_project_click p (PStr sid) db1) as [db2|e] eqn:Hclick.
      * exists success_200, []. repeat split; eauto 6.
      * eexists (register_failure p), _. repeat split; [by right|done|].
        intros (db1' & [= <-] & [?|[db2 Hc]]); congruence.
  - eexists (register_failure p), _. repeat split; [by right|done|].
    intros (db1 & ? & _). congruence.
Qed.

(** X7. Without a session id in the session, register_user_data does to
    the database what add_view does: the view is counted when the store
    accepts it, and no click is recorded. *)
Theorem register_without_session_id_counts_a_view {DB} `{Models DB}
    (p : Z) (req req' : request) (db : DB) :
  dict_get (session req) "session_id" = PNone →
  db_after (register_user_data p req db) = db_after (add_view p req' db).
Proof.
  intros Hsid. unfold register_user_data, add_view. rewrite Hsid.
  by destruct (add_view_count p 1 db).
Qed.

Lemma register_without_session_id_counts_a_view_witness :
  db_after (register_user_data 2 visitor linked_catalog)
  = db_after (add_view 2 newcomer linked_catalog).
Proof.
  apply (register_without_session_id_counts_a_view 2 visitor newcomer
           linked_catalog).
  reflexivity.
Defined.

(** ** project_page *)

(** X8. A visit of the project page that lacks [from] or [project_id] is
    no click-through: the page is rendered, the data layer is not called
    and the database stays as it was, also when the store would raise. *)
Theorem page_visit_without_origin {DB} `{Models DB}
    (req : request) (db : DB) :
  args req !! "from" = None ∨ args req !! "project_id" = None →
  project_page req db = mkReply (Ok project_html) db [].
Proof.
  unfold project_page. intros [Hmiss|Hmiss]; rewrite Hmiss; [done|].
  by destruct (args req !! "from").
Qed.

Lemma page_visit_without_origin_witness :
  project_page
    {| current_user := anonymous; session := ∅;
       args := {[ "project_id" := "3" ]} |} unreachable
  = mkReply (Ok project_html) unreachable [].
Proof.
  apply (page_visit_without_origin
           {| current_user := anonymous; session := ∅;
              args := {[ "project_id" := "3" ]} |} unreachable).
  left. reflexivity.
Defined.

(* ===================================================================== *)
(** * Who may edit a project *)
(* ===================================================================== *)

Section EditingFacts.
Context {DB : Type} `{S : Staff DB}.

Lemma is_guide_spec guides e :
  is_guide guides e = true ↔ ∃ g, g ∈ guides ∧ employee g = e_id e.
Proof.
  induction guides as [|g guides IH]; simpl.
  - split; [discriminate|]. intros (g & Hg & _). by apply elem_of_nil in Hg.
  - destruct (employee g =? e_id e) eqn:Hg.
    + split; [|done]. intros _. exists g.
      split; [apply list_elem_of_here|by apply Z.eqb_eq].
    + rewrite IH. split.
      * intros (g' & Hin & Heq). exists g'.
        split; [by apply list_elem_of_further|done].
      * intros (g' & Hin & Heq). apply elem_of_cons in Hin as [->|Hin].
        -- apply Z.eqb_neq in Hg. congruence.
        -- by exists g'.
Qed.

(** An admin passes the loop of projects without any lookup. *)
Lemma all_authorized_admin name ps db : all_authorized "admin" name ps db = Ok true.
Proof. induction ps as [|p ps IH]; [done|]. simpl. exact IH. Qed.


End EditingFacts.

(** X9. An employee who is a guide of the project is authorized for it
    without the project being fetched: also for a project that
    get_project cannot find. *)
Theorem guide_is_authorized {DB} `{Staff DB}
    (name : string) (project_id : pyval) (db : DB)
    (e : Employee) (guides : list Guide) (g : Guide) :
  get_employee_by_name name db = Ok e →
  get_guides_for_project project_id db = Ok guides →
  g ∈ guides → employee g = e_id e →
  employee_authorized_for_project name project_id db = Ok true.
Proof.
  intros He Hgs Hg Heq. unfold employee_authorized_for_project.
  rewrite He. cbn [mbind result_bind]. rewrite Hgs. cbn [mbind result_bind].
  assert (is_guide guides e = true) as -> by (apply is_guide_spec; eauto).
  reflexivity.
Qed.

(** Ann guides a project that the office has no record of. *)
Lemma guide_is_authorized_witness :
  employee_authorized_for_project "Ann" (PStr "77")
    {| office_staff := [mkEmployee 1 "Ann" "ADReM"];
       office_guides := [mkGuide 1 (PStr "77")];
       office_projects := []; office_likes := [] |}
  = Ok true.
Proof.
  apply (guide_is_authorized "Ann" (PStr "77") _ (mkEmployee 1 "Ann" "ADReM")
           [mkGuide 1 (PStr "77")] (mkGuide 1 (PStr "77"))).
  - reflexivity.
  - reflexivity.
  - apply list_elem_of_here.
  - reflexivity.
Defined.

(** X10. When employee_authorized_for_project answers, it says yes exactly
    for a guide of the project and for an employee of the research group
    of the project. *)
Theorem employee_authorized_iff {DB} `{Staff DB}
    (name : string) (project_id : pyval) (db : DB) (b : bool) :
  employee_authorized_for_project name project_id db = Ok b →
  ∃ e guides,
    get_employee_by_name name db = Ok e
    ∧ get_guides_for_project project_id db = Ok guides
    ∧ (b = true ↔
       (∃ g, g ∈ guides ∧ employee g = e_id e)
       ∨ (∃ x, get_project_as_sent project_id false db = Ok x
               ∧ employee_group e = research_group x)).
Proof.
  unfold employee_authorized_for_project.
  destruct (get_employee_by_name name db) as [e|] eqn:He;
    cbn [mbind result_bind]; [|discriminate].
  destruct (get_guides_for_project project_id db) as [guides|] eqn:Hgs;
    cbn [mbind result_bind]; [|discriminate].
  intros Hb. exists e, guides. split; [done|]. split; [done|].
  destruct (is_guide guides e) eqn:Hguide.
  - inversion Hb; subst. split; [|done]. intros _. left.
    by apply is_guide_spec.
  - destruct (get_project_as_sent project_id false db) as [x|] eqn:Hx;
      cbn [mbind result_bind] in Hb; [|discriminate].
    inversion Hb; subst. split.
    + intros Hsame. right. exists x. split; [done|].
      by apply String.eqb_eq.
    + intros [Hg|(x' & [= <-] & Hsame)].
      * apply is_guide_spec in Hg. congruence.
      * by apply String.eqb_eq.
Qed.

Lemma employee_authorized_iff_witness :
  ∃ e guides,
    get_employee_by_name "Bob" sample_office = Ok e
    ∧ get_guides_for_project (PStr "8") sample_office = Ok guides
    ∧ (true = true ↔
       (∃ g, g ∈ guides ∧ employee g = e_id e)
       ∨ (∃ x, get_project_as_sent (PStr "8") false sample_office = Ok x
               ∧ employee_group e = research_group x)).
Proof.
  apply (employee_authorized_iff "Bob" (PStr "8") sample_office true).
  reflexivity.
Defined.

(** X11. can_modify and projects agree on one project: a POST to projects
    that names the project [p_id] alone is handed to manage exactly when
    can_modify answers true for the caller; it is refused with status 400
    when can_modify answers false, and ends with the same exception when
    can_modify raises. *)
Theorem can_modify_agrees_with_projects {DB} `{Staff DB}
    (method name p_id : string) (json : gmap string (list pyval))
    (manage : gmap string (list pyval) → DB → reply DB)
    (req : request) (db : DB) :
  String.eqb method "GET" = false →
  json !! "projects" = Some [PStr p_id] →
  match outcome (can_modify name p_id req db) with
  | Ok r =>
      (r = bare (Jsonify [("modify", JBool true)])
       ∧ projects method name json manage req db = manage json db)
      ∨ (r = bare (Jsonify [("modify", JBool false)])
         ∧ projects method name json manage req db
           = mkReply (Ok not_authorized) db [])
  | Raise e => projects method name json manage req db = mkReply (Raise e) db []
  end.
Proof.
  intros Hmethod Hjson. unfold can_modify, projects, subscript.
  rewrite Hmethod, Hjson.
  destruct (is_authenticated (current_user req)); cbn [negb orb];
    [|by right].
  destruct (String.eqb (role (current_user req)) "admin") eqn:Hadmin;
    cbn [negb andb].
  - apply String.eqb_eq in Hadmin. rewrite Hadmin.
    rewrite all_authorized_admin. by left.
  - destruct (String.eqb (role (current_user req)) "employee"); cbn [negb];
      [|by right].
    cbn [all_authorized]. rewrite Hadmin. cbn [negb].
    destruct (employee_authorized_for_project name (PStr p_id) db) as [[|]|];
      cbn [mbind result_bind negb outcome]; [by left|by right|done].
Qed.

(** Ann may modify project 7, which she guides. *)
Lemma can_modify_agrees_with_projects_witness :
  (bare (Jsonify [("modify", JBool true)])
   = bare (Jsonify [("modify", JBool true)])
   ∧ projects "POST" "Ann" {[ "projects" := [PStr "7"] ]} sample_manage
       (logged_in "employee" "ann") sample_office
     = sample_manage {[ "projects" := [PStr "7"] ]} sample_office)
  ∨ (bare (Jsonify [("modify", JBool true)])
     = bare (Jsonify [("modify", JBool false)])
     ∧ projects "POST" "Ann" {[ "projects" := [PStr "7"] ]} sample_manage
         (logged_in "employee" "ann") sample_office
       = mkReply (Ok not_authorized) sample_office []).
Proof.
  exact (can_modify_agrees_with_projects "POST" "Ann" "7"
           {[ "projects" := [PStr "7"] ]} sample_manage
           (logged_in "employee" "ann") sample_office eq_refl eq_refl).
Defined.



(** X13. A POST to projects by a caller who is not logged in, or whose
    role is neither admin nor employee, is refused with status 400 before
    the body is read: whatever the JSON holds, manage is not called and
    the database is untouched. *)
Theorem projects_refuses_other_callers {DB} `{Staff DB}
    (method name : string) (json : gmap string (list pyval))
    (manage : gmap string (list pyval) → DB → reply DB)
    (req : request) (db : DB) :
  String.eqb method "GET" = false →
  is_authenticated (current_user req) = false
  ∨ (role (current_user req) ≠ "admin"
     ∧ role (current_user req) ≠ "employee") →
  projects method name json manage req db = mkReply (Ok not_authorized) db [].
Proof.
  intros Hmethod Hwho. unfold projects. rewrite Hmethod.
  destruct Hwho as [->|[Hadmin Hemployee]]; [done|].
  apply String.eqb_neq in Hadmin, Hemployee. rewrite Hadmin, Hemployee.
  by rewrite orb_true_r.
Qed.

Lemma projects_refuses_other_callers_witness :
  projects "POST" "Carl" {[ "projects" := [PStr "7"] ]} sample_manage
    (logged_in "student" "carl") sample_office
  = mkReply (Ok not_authorized) sample_office [].
Proof.
  apply (projects_refuses_other_callers "POST" "Carl"
           {[ "projects" := [PStr "7"] ]} sample_manage
           (logged_in "student" "carl") sample_office).
  - reflexivity.
  - right. split; discriminate.
Defined.

(** X14. A POST to projects by a logged-in admin is handed to manage for
    every list of projects, with no lookup of employees, guides or
    projects. *)
Theorem admin_edits_every_project {DB} `{Staff DB}
    (method name : string) (json : gmap string (list pyval))
    (manage : gmap string (list pyval) → DB → reply DB)
    (req : request) (db : DB) (ps : list pyval) :
  String.eqb method "GET" = false →
  is_authenticated (current_user req) = true →
  role (current_user req) = "admin" →
  json !! "projects" = Some ps →
  projects method name json manage req db = manage json db.
Proof.
  intros Hmethod Hlogged Hrole Hjson. unfold projects, subscript.
  rewrite Hmethod, Hlogged, Hrole, Hjson. cbn [negb orb andb String.eqb].
  by rewrite all_authorized_admin.
Qed.

(** The admin is not among the employees of the office, and project 99 is
    not among its projects. *)
Lemma admin_edits_every_project_witness :
  projects "POST" "Root" {[ "projects" := [PStr "99"] ]} sample_manage
    (logged_in "admin" "root") sample_office
  = sample_manage {[ "projects" := [PStr "99"] ]} sample_office.
Proof.
  apply (admin_edits_every_project "POST" "Root"
           {[ "projects" := [PStr "99"] ]} sample_manage
           (logged_in "admin" "root") sample_office [PStr "99"]).
  - reflexivity.
  - reflexivity.
  - reflexivity.
  - reflexivity.
Defined.

(** X15. like_project and unlike_project refuse a caller who is not logged
    in with status 400, before the form is read: no like is added or
    removed. *)
Theorem likes_need_a_login {DB} `{Staff DB}
    (form : gmap string string) (req : request) (db : DB) :
  is_authenticated (current_user req) = false →
  like_project form req db = mkReply (Ok failure_400) db []
  ∧ unlike_project form req db = mkReply (Ok failure_400) db [].
Proof. intros Hanon. unfold like_project, unlike_project. by rewrite Hanon. Qed.

Lemma likes_need_a_login_witness :
  like_project {[ "data" := "7" ]} visitor sample_office
  = mkReply (Ok failure_400) sample_office []
  ∧ unlike_project {[ "data" := "7" ]} visitor sample_office
    = mkReply (Ok failure_400) sample_office [].
Proof.
  apply (likes_need_a_login {[ "data" := "7" ]} visitor sample_office).
  reflexivity.
Defined.

(* ===================================================================== *)
(** * Attachments *)
(* ===================================================================== *)

Lemma prefixed_shift k name : prefixed k ("1" +:+ name) = prefixed (S k) name.
Proof. induction k as [|k IH]; [done|]. simpl in *. by rewrite IH. Qed.

Lemma length_one_more name :
  String.length ("1" +:+ name) = S (String.length name).
Proof. reflexivity. Qed.

Lemma prefixed_length k name :
  String.length (prefixed k name) = (k + String.length name)%nat.
Proof.
  induction k as [|k IH]; [done|].
  change (prefixed (S k) name) with ("1" +:+ prefixed k name).
  by rewrite length_one_more, IH.
Qed.

Lemma prefixed_inj name : Inj (=) (=) (λ k, prefixed k name).
Proof.
  intros j k Heq. apply (f_equal String.length) in Heq.
  rewrite !prefixed_length in Heq. lia.
Qed.


(** The name the loop ends with: the first of [name], ["1" + name],
    ["11" + name], ... that the directory does not have. *)
Lemma free_name_found fuel files : ∀ name found,
  free_name fuel files name = Some found →
  ∃ k, (k < fuel)%nat ∧ found = prefixed k name
       ∧ files !! found = None
       ∧ ∀ j, (j < k)%nat → is_Some (files !! prefixed j name).
Proof.
  induction fuel as [|fuel IH]; intros name found Hrun; [discriminate|].
  simpl in Hrun. destruct (files !! name) as [c|] eqn:Hname.
  - destruct (IH _ _ Hrun) as (k & Hk & -> & Hfree & Hbelow).
    exists (S k). rewrite <- prefixed_shift.
    split; [lia|]. split; [done|]. split; [done|].
    intros [|j] Hj; [by exists c|].
    rewrite <- prefixed_shift. apply Hbelow. lia.
  - inversion Hrun; subst. exists 0%nat.
    split; [lia|]. split; [done|]. split; [done|]. intros j Hj. lia.
Qed.

(** When the fuel runs out, every name that was tried is in the
    directory. *)
Lemma free_name_exhausted fuel files : ∀ name,
  free_name fuel files name = None →
  ∀ j, (j < fuel)%nat → is_Some (files !! prefixed j name).
Proof.
  induction fuel as [|fuel IH]; intros name Hrun j Hj; [lia|].
  simpl in Hrun. destruct (files !! name) as [c|] eqn:Hname; [|discriminate].
  destruct j as [|j]; [by exists c|].
  rewrite <- prefixed_shift. apply (IH _ Hrun). lia.
Qed.

(** The loop of save_attachment ends: a directory cannot hold one name
    more than it has entries. *)
Lemma free_name_terminates (files : gmap string string) name :
  is_Some (free_name (S (size files)) files name).
Proof.
  destruct (free_name (S (size files)) files name) as [found|] eqn:Hrun;
    [by exists found|].
  pose proof (free_name_exhausted _ _ _ Hrun) as Hall.
  set (tried := (λ k, prefixed k name) <$> seq 0 (S (size files))).
  assert (NoDup tried) as Hnodup.
  { pose proof (prefixed_inj name) as Hinj.
    apply (NoDup_fmap_2 _), NoDup_seq. }
  assert ((list_to_set tried : gset string) ⊆ dom files) as Hsub.
  { intros x Hx. apply elem_of_list_to_set in Hx.
    apply list_elem_of_fmap in Hx as (k & -> & Hk).
    apply elem_of_seq in Hk. apply elem_of_dom, Hall. lia. }
  apply subseteq_size in Hsub.
  rewrite size_list_to_set, size_dom in Hsub by done.
  unfold tried in Hsub. rewrite length_fmap, length_seq in Hsub. lia.
Qed.

Section AttachmentFacts.
Context (secure_filename : string → string).

(** What save_attachment does with an upload it does not refuse, in a
    place where the directory is or can be made. *)
Lemma save_attachment_run request_files file d :
  request_files !! "file" = Some file →
  filename file ≠ "" →
  d ≠ Blocked →
  ∃ k,
    free_name (S (size (listdir d))) (listdir d)
      (secure_filename (filename file))
    = Some (prefixed k (secure_filename (filename file)))
    ∧ listdir d !! prefixed k (secure_filename (filename file)) = None
    ∧ (∀ j, (j < k)%nat →
         is_Some (listdir d !! prefixed j (secure_filename (filename file))))
    ∧ save_attachment secure_filename request_files d
      = if String.eqb (prefixed k (secure_filename (filename file))) ""
        then (RaisedOSError, Directory (listdir d))
        else
          (Answered
             {| resp_body :=
                  Jsonify [("success", JBool true);
                           ("name", JStr (filename file));
                           ("file_location",
                            JStr (prefixed k
                                    (secure_filename (filename file))))];
                status := 200; headers := json_header |},
           Directory (<[prefixed k (secure_filename (filename file))
                        := stream file]> (listdir d))).
Proof.
  intros Hfile Hname Hdir.
  destruct (free_name_terminates (listdir d)
              (secure_filename (filename file))) as [found Hrun].
  destruct (free_name_found _ _ _ _ Hrun) as (k & _ & -> & Hfree & Hbelow).
  exists k. split; [done|]. split; [done|]. split; [done|].
  unfold save_attachment. rewrite Hfile.
  rewrite (proj2 (String.eqb_neq _ _) Hname).
  destruct d as [|files|]; [| |done]; cbn [listdir] in *; cbv zeta;
    by rewrite Hrun.
Qed.

End AttachmentFacts.



(** X17. Whatever is uploaded, save_attachment comes to an end and every
    file that was in the attachments directory is still there afterwards,
    with the same content. *)
Theorem save_attachment_keeps_existing_files
    (secure_filename : string → string)
    (request_files : gmap string FileStorage) (d : upload_dir) :
  (save_attachment secure_filename request_files d).1 ≠ Spinning
  ∧ ∀ name content,
      listdir d !! name = Some content →
      listdir (save_attachment secure_filename request_files d).2 !! name
      = Some content.
Proof.
  destruct (request_files !! "file") as [file|] eqn:Hfile;
    [|unfold save_attachment; rewrite Hfile; by split].
  destruct (String.eqb (filename file) "") eqn:Hname;
    [unfold save_attachment; rewrite Hfile, Hname; by split|].
  assert (d = Blocked ∨ d ≠ Blocked) as [->|Hdir]
    by (destruct d; [right|right|left]; done).
  { unfold save_attachment. rewrite Hfile, Hname. by split. }
  apply String.eqb_neq in Hname.
  destruct (save_attachment_run secure_filename request_files file d
              Hfile Hname Hdir) as (k & _ & Hfree & _ & Hsave).
  rewrite Hsave.
  destruct (String.eqb (prefixed k _) ""); simpl; (split; [done|]);
    intros name content Hold; [done|].
  rewrite lookup_insert_ne; [done|]. intros <-. congruence.
Qed.

(** The round of the loop at which a free name is met is determined by
    the directory. *)
Lemma first_free_unique (files : gmap string string) name k m :
  files !! prefixed k name = None →
  (∀ j, (j < k)%nat → is_Some (files !! prefixed j name)) →
  files !! prefixed m name = None →
  (∀ j, (j < m)%nat → is_Some (files !! prefixed j name)) →
  k = m.
Proof.
  intros Hk Hbelow_k Hm Hbelow_m.
  destruct (Nat.lt_trichotomy k m) as [Hlt|[Heq|Hgt]]; [|done|].
  - destruct (Hbelow_m k Hlt) as [c Hc]. congruence.
  - destruct (Hbelow_k m Hgt) as [c Hc]. congruence.
Qed.


(** X18. An attachment that save_attachment stored can be fetched again:
    get_attachment, asked for the location named in the reply, sends the
    uploaded content, provided the location is a name that secure_filename
    does not reduce to the empty string. *)
Theorem saved_attachment_is_served
    (secure_filename : string → string)
    (request_files : gmap string FileStorage) (file : FileStorage)
    (d d' : upload_dir) (r : response) (location : string) :
  request_files !! "file" = Some file →
  save_attachment secure_filename request_files d = (Answered r, d') →
  file_location r = Some location →
  secure_filename location ≠ "" →
  get_attachment secure_filename location d' = SendFile (stream file).
Proof.
  intros Hfile Hsave Hloc Hsafe.
  destruct (String.eqb (filename file) "") eqn:Hname.
  { unfold save_attachment in Hsave. rewrite Hfile, Hname in Hsave.
    inversion Hsave; subst. discriminate. }
  assert (d ≠ Blocked) as Hdir.
  { intros ->. unfold save_attachment in Hsave.
    rewrite Hfile, Hname in Hsave. discriminate. }
  apply String.eqb_neq in Hname.
  destruct (save_attachment_run secure_filename request_files file d
              Hfile Hname Hdir) as (k & _ & _ & _ & Hrun).
  rewrite Hrun in Hsave.
  destruct (String.eqb (prefixed k _) ""); [discriminate|].
  inversion Hsave; subst. inversion Hloc; subst.
  unfold get_attachment.
  rewrite (proj2 (String.eqb_neq _ _) Hsafe). simpl.
  by rewrite lookup_insert_eq.
Qed.

Lemma saved_attachment_is_served_witness :
  get_attachment plain_name "11a.pdf"
    (Directory {[ "11a.pdf" := "new"; "a.pdf" := "old"; "1a.pdf" := "older" ]})
  = SendFile (stream (mkFile "a.pdf" "new")).
Proof.
  apply (saved_attachment_is_served plain_name (upload "a.pdf" "new")
           (mkFile "a.pdf" "new")
           (Directory {[ "a.pdf" := "old"; "1a.pdf" := "older" ]})
           (Directory {[ "11a.pdf" := "new"; "a.pdf" := "old";
                         "1a.pdf" := "older" ]})
           {| resp_body :=
                Jsonify [("success", JBool true); ("name", JStr "a.pdf");
                         ("file_location", JStr "11a.pdf")];
              status := 200; headers := json_header |}).
  - reflexivity.
  - vm_compute. reflexivity.
  - reflexivity.
  - discriminate.
Defined.



(** X20. A request without a file, or with a file whose name is empty, is
    refused with status 400 and touches nothing: the attachments
    directory is not even created. *)
Theorem save_attachment_refuses_nameless
    (secure_filename : string → string)
    (request_files : gmap string FileStorage) (d : upload_dir) :
  request_files !! "file" = None
  ∨ (∃ file, request_files !! "file" = Some file ∧ filename file = "") →
  save_attachment secure_filename request_files d = (Answered failure_400, d).
Proof.
  unfold save_attachment. intros [->|(file & -> & ->)]; reflexivity.
Qed.

Lemma save_attachment_refuses_nameless_witness :
  save_attachment plain_name (upload "" "bytes") NoDirectory
  = (Answered failure_400, NoDirectory).
Proof.
  apply (save_attachment_refuses_nameless plain_name (upload "" "bytes")
           NoDirectory).
  right. exists (mkFile "" "bytes"). split; reflexivity.
Defined.

(** X21. A file name that is not empty but that secure_filename reduces to
    the empty string is not refused: the directory is made if need be, and
    saving under the empty name raises; no file is written. *)
Theorem save_attachment_fails_on_unusable_name
    (secure_filename : string → string)
    (request_files : gmap string FileStorage) (file : FileStorage)
    (d : upload_dir) :
  request_files !! "file" = Some file →
  filename file ≠ "" →
  secure_filename (filename file) = "" →
  d ≠ Blocked →
  listdir d !! "" = None →
  save_attachment secure_filename request_files d
  = (RaisedOSError, Directory (listdir d)).
Proof.
  intros Hfile Hname Hsafe Hdir Hfree.
  destruct (save_attachment_run secure_filename request_files file d
              Hfile Hname Hdir) as (k & _ & Hk & Hbelow & Hrun).
  rewrite Hsafe in Hk, Hbelow, Hrun.
  assert (k = 0%nat) as ->.
  { apply (first_free_unique (listdir d) ""); [done|done|done|].
    intros j Hj. lia. }
  exact Hrun.
Qed.

Lemma save_attachment_fails_on_unusable_name_witness :
  save_attachment plain_name (upload "???" "bytes") NoDirectory
  = (RaisedOSError, Directory (listdir NoDirectory)).
Proof.
  apply (save_attachment_fails_on_unusable_name plain_name
           (upload "???" "bytes") (mkFile "???" "bytes") NoDirectory).
  - reflexivity.
  - discriminate.
  - reflexivity.
  - discriminate.
  - reflexivity.
Defined.
